(** * The event relay of [server.js]

    A shallow embedding of the request handlers of [src/server.js]
    ([connectDB], [POST /api/upload], [GET /health], [GET /feedbacks])
    and the properties the specification states about them.

    The handlers are embedded as computations in a state-and-exception
    monad over a [World]: the connection state of the document store, the
    stored [Evaluation] documents, the events the broker has delivered, the
    external calls issued so far and the console.  A request is handled
    from start to end without interleaving: what two overlapping requests
    do at their [await] points is outside this model. *)

From Stdlib Require Import ZArith List String Ascii Bool DecimalString.
Import ListNotations.
Open Scope string_scope.
Open Scope list_scope.
Open Scope Z_scope.

Set Warnings "-register-all".

(** ** JavaScript values *)

(** The values the handlers touch: what [express.json()] parses out of a
    request body, plus the host objects the handler builds ([Date],
    [ObjectId]) and the built-in members an object inherits from
    [Object.prototype].  An object is the list of its own properties in
    enumeration order; numbers are the integers; a string is the sequence
    of its characters, one code unit each. *)
Inductive JVal : Type :=
| JUndefined
| JNull
| JBool (b : bool)
| JNum (n : Z)
| JStr (s : string)
| JArr (items : list JVal)
| JObj (props : list (string * JVal))
| JDate (ms : Z)
| JObjectId (n : Z)
| JBuiltin (name : string).

Inductive Err : Type :=
| TypeError
| StoreError
| BrokerError.

Inductive Result (A : Type) : Type :=
| Ok (a : A)
| Throw (e : Err).
Arguments Ok {A} a.
Arguments Throw {A} e.

(** Own property lookup, first match. *)
Fixpoint lookup (k : string) (ps : list (string * JVal)) : option JVal :=
  match ps with
  | [] => None
  | (k', v) :: rest => if String.eqb k k' then Some v else lookup k rest
  end.

(** [obj[k] = v] on own properties: overwrite in place, else append. *)
Fixpoint assign (k : string) (v : JVal) (ps : list (string * JVal))
  : list (string * JVal) :=
  match ps with
  | [] => [(k, v)]
  | (k', v') :: rest =>
      if String.eqb k k' then (k, v) :: rest else (k', v') :: assign k v rest
  end.

(** The property names every plain object inherits from [Object.prototype]. *)
Definition objectPrototype : list string :=
  [ "constructor"; "__proto__"; "hasOwnProperty"; "isPrototypeOf";
    "propertyIsEnumerable"; "toLocaleString"; "toString"; "valueOf";
    "__defineGetter__"; "__defineSetter__"; "__lookupGetter__";
    "__lookupSetter__" ].

Definition inherited (k : string) : bool :=
  existsb (String.eqb k) objectPrototype.

(** [v[k]] / [v.k].  Reading a property of [undefined] or [null] throws a
    TypeError.  An object answers with its own property, then with what it
    inherits; an array or a string knows its [length]; every other read
    gives [undefined].  (Index reads and the members of [Array.prototype]
    and [String.prototype] other than [length] are left out: the handlers
    read none of them off an array or a string.) *)
Definition getProp (v : JVal) (k : string) : Result JVal :=
  match v with
  | JUndefined | JNull => Throw TypeError
  | JObj ps =>
      match lookup k ps with
      | Some x => Ok x
      | None => Ok (if inherited k then JBuiltin k else JUndefined)
      end
  | JArr l => Ok (if String.eqb k "length" then JNum (Z.of_nat (List.length l))
                  else JUndefined)
  | JStr s => Ok (if String.eqb k "length" then JNum (Z.of_nat (String.length s))
                  else JUndefined)
  | _ => Ok JUndefined
  end.

(** JavaScript truthiness. *)
Definition truthy (v : JVal) : bool :=
  match v with
  | JUndefined | JNull => false
  | JBool b => b
  | JNum n => negb (n =? 0)
  | JStr s => negb (String.eqb s "")
  | _ => true
  end.

(** [v === 'lit'] against a string literal. *)
Definition strictEq (v : JVal) (lit : string) : bool :=
  match v with
  | JStr s => String.eqb s lit
  | _ => false
  end.

(** Decimal index keys ["0"], ["1"], ... *)
Definition indexKey (i : nat) : string :=
  NilZero.string_of_uint (Nat.to_uint i).

Fixpoint indexed (i : nat) (l : list JVal) : list (string * JVal) :=
  match l with
  | [] => []
  | x :: rest => (indexKey i, x) :: indexed (S i) rest
  end.

Fixpoint chars (s : string) : list JVal :=
  match s with
  | EmptyString => []
  | String c rest => JStr (String c EmptyString) :: chars rest
  end.

(** The own enumerable properties an object spread [{...v}] copies. *)
Definition spread (v : JVal) : list (string * JVal) :=
  match v with
  | JObj ps => ps
  | JArr l => indexed 0 l
  | JStr s => indexed 0 (chars s)
  | _ => []
  end.

(** ** The Evaluation schema *)

(** A schema path of a stored document: not set, [null], or a value. *)
Inductive Field (A : Type) : Type :=
| Absent
| Null
| Val (a : A).
Arguments Absent {A}.
Arguments Null {A}.
Arguments Val {A} a.

(** [evaluationSchema], with the [_id] the store assigns. *)
Record Evaluation : Type := mkEvaluation {
  _id : Z;
  teamName : Field string;
  evaluatorUSN : Field string;
  ratings : JVal;
  feedback : Field string;
  submittedAt : Z
}.

Definition hasTeam (t : string) (e : Evaluation) : bool :=
  match teamName e with
  | Val s => String.eqb s t
  | _ => false
  end.

(** Ratings the store keeps as they are: a mapping with at least one
    category, from names to numbers or strings. *)
Definition reservedKeys : list string :=
  [ "__proto__"; "constructor"; "prototype" ].

Definition scalar (v : JVal) : bool :=
  match v with
  | JNum _ | JStr _ => true
  | _ => false
  end.

Definition plainRatings (v : JVal) : bool :=
  match v with
  | JObj [] => false
  | JObj ps =>
      forallb (fun kv => negb (existsb (String.eqb (fst kv)) reservedKeys)
                         && scalar (snd kv)) ps
  | _ => false
  end.

(** What the document-store client does with the values it is handed.
    The schema declares [teamName], [evaluatorUSN] and [feedback] as
    [String]; the client casts what it receives or rejects it ([None]).
    [ratings] is declared [Object]: any value is taken, but the client
    saves documents minimised, so what it keeps of a value ([keepMixed])
    need not be the value: an empty object is dropped.  The client is a
    dependency, not part of the repository: only what it does with strings,
    with plain ratings and with the empty object is fixed here, the rest
    is left to the instance. *)
Class DocumentStore : Type := {
  castString : JVal -> option (Field string);
  castString_JStr : forall s, castString (JStr s) = Some (Val s);
  (** What is kept of a value saved at the [ratings] path. *)
  keepMixed : JVal -> JVal;
  keepMixed_plain : forall v, plainRatings v = true -> keepMixed v = v;
  keepMixed_empty : keepMixed (JObj []) = JUndefined;
  (** [Evaluation.find({ teamName: v })] over the stored documents. *)
  findByTeam : JVal -> list Evaluation -> option (list Evaluation);
  findByTeam_JStr :
    forall s ds, findByTeam (JStr s) ds = Some (filter (hasTeam s) ds)
}.

(** ** The world outside the handlers *)

(** The external operations a handler awaits.  Whether one of them fails
    is the environment's choice, not the handler's. *)
Inductive Op : Type :=
| OpConnect
| OpCreate
| OpFind
| OpTrigger (event : string).

(** An external call as issued, whether or not it then succeeds. *)
Inductive Call : Type :=
| CallConnect
| CallCreate (team evaluator rates comment : JVal) (at_ : Z)
| CallFind (byTeam : option JVal)
| CallTrigger (channel event : string) (data : JVal).

(** An event the broker has accepted for a channel. *)
Record Broadcast : Type := mkBroadcast {
  channel : string;
  eventName : string;
  payload : JVal
}.

Inductive LogLine : Type :=
| LogConnected
| LogConnectionError (e : Err)
| LogEventError (e : Err)
| LogFeedbacksError (e : Err).

Record World : Type := mkWorld {
  readyState : Z;              (* mongoose.connection.readyState *)
  docs : list Evaluation;      (* the Evaluation collection, oldest first *)
  nextId : Z;                  (* the next _id the store hands out *)
  clock : Z;                   (* what new Date() reads *)
  faulty : Op -> bool;         (* the operations that fail right now *)
  calls : list Call;           (* external calls issued, oldest first *)
  delivered : list Broadcast;  (* events the broker accepted, oldest first *)
  console : list LogLine
}.

Definition setReadyState (n : Z) (w : World) : World :=
  mkWorld n (docs w) (nextId w) (clock w) (faulty w) (calls w)
          (delivered w) (console w).

Definition insertDoc (e : Evaluation) (w : World) : World :=
  mkWorld (readyState w) (docs w ++ [e]) (nextId w + 1) (clock w) (faulty w)
          (calls w) (delivered w) (console w).

Definition recordCall (c : Call) (w : World) : World :=
  mkWorld (readyState w) (docs w) (nextId w) (clock w) (faulty w)
          (calls w ++ [c]) (delivered w) (console w).

Definition deliver (b : Broadcast) (w : World) : World :=
  mkWorld (readyState w) (docs w) (nextId w) (clock w) (faulty w) (calls w)
          (delivered w ++ [b]) (console w).

Definition logLine (l : LogLine) (w : World) : World :=
  mkWorld (readyState w) (docs w) (nextId w) (clock w) (faulty w) (calls w)
          (delivered w) (console w ++ [l]).

(** ** Computations: state and exceptions *)

Definition M (A : Type) : Type := World -> Result A * World.

Definition ret {A} (a : A) : M A := fun w => (Ok a, w).

Definition throw {A} (e : Err) : M A := fun w => (Throw e, w).

Definition bind {A B} (m : M A) (k : A -> M B) : M B :=
  fun w =>
    match m w with
    | (Ok a, w') => k a w'
    | (Throw e, w') => (Throw e, w')
    end.

(** [try { m } catch (error) { h error }] *)
Definition tryCatch {A} (m : M A) (h : Err -> M A) : M A :=
  fun w =>
    match m w with
    | (Ok a, w') => (Ok a, w')
    | (Throw e, w') => h e w'
    end.

Definition lift {A} (r : Result A) : M A := fun w => (r, w).

Definition reads {A} (f : World -> A) : M A := fun w => (Ok (f w), w).

Definition modify (f : World -> World) : M unit := fun w => (Ok tt, f w).

Declare Scope js_scope.
Delimit Scope js_scope with js.
Notation "x <- m ;; k" := (bind m (fun x => k))
  (at level 61, m at next level, right associativity) : js_scope.
Notation "m ;; k" := (bind m (fun _ => k))
  (at level 61, right associativity) : js_scope.
Open Scope js_scope.

(** An awaited external operation: the call is issued, then it either
    rejects with [e] or goes on. *)
Definition await (c : Call) (op : Op) (e : Err) : M unit :=
  modify (recordCall c) ;;
  bad <- reads (fun w => faulty w op) ;;
  if bad then throw e else ret tt.

(** ** The persistence gateway *)

(** [mongoose.connect(process.env.MONGODB_URI)] *)
Definition mongoose_connect : M unit :=
  await CallConnect OpConnect StoreError ;;
  modify (setReadyState 1).

(** [connectDB] *)
Definition connectDB : M unit :=
  tryCatch
    (rs <- reads readyState ;;
     if rs =? 0 then
       mongoose_connect ;;
       modify (logLine LogConnected)
     else ret tt)
    (fun error =>
       modify (logLine (LogConnectionError error)) ;;
       throw error).

Section Handlers.

Context {store : DocumentStore}.

(** [Evaluation.create({...})]: the document is cast against the schema,
    given a fresh [_id] and appended to the collection as the store keeps
    it. *)
Definition Evaluation_create (team evaluator rates comment : JVal) (at_ : Z)
  : M Evaluation :=
  await (CallCreate team evaluator rates comment at_) OpCreate StoreError ;;
  match castString team, castString evaluator, castString comment with
  | Some t, Some u, Some f =>
      id <- reads nextId ;;
      let doc := mkEvaluation id t u (keepMixed rates) f at_ in
      modify (insertDoc doc) ;;
      ret doc
  | _, _, _ => throw StoreError
  end.

(** [Evaluation.find({ teamName: team })] *)
Definition Evaluation_find (team : JVal) : M (list Evaluation) :=
  await (CallFind (Some team)) OpFind StoreError ;;
  ds <- reads docs ;;
  match findByTeam team ds with
  | Some found => ret found
  | None => throw StoreError
  end.

(** [Evaluation.find({})] *)
Definition Evaluation_findAll : M (list Evaluation) :=
  await (CallFind None) OpFind StoreError ;;
  reads docs.

(** ** The event broadcaster *)

(** [pusher.trigger(channel, event, data)] *)
Definition pusher_trigger (ch ev : string) (data : JVal) : M unit :=
  await (CallTrigger ch ev data) (OpTrigger ev) BrokerError ;;
  modify (deliver (mkBroadcast ch ev data)).

(** ** HTTP responses *)

Record Response : Type := mkResponse {
  status : Z;
  body : JVal     (* the value handed to res.json *)
}.

Definition message (text : string) : JVal := JObj [("message", JStr text)].

(** ** The event dispatcher: [POST /api/upload] *)

Definition relayEvents : list string :=
  [ "presentationStarting"; "presentationStarted"; "presentationEnded";
    "timeSync"; "evaluationForm"; "presentationReset" ].

(** [type === 'participants' || type === 'teams'] *)
Definition bulkType (type : JVal) : bool :=
  strictEq type "participants" || strictEq type "teams".

(** The template [`Successfully processed ${type} upload`]; it is only
    evaluated where [type] is one of the two strings. *)
Definition uploadMessage (type : JVal) : string :=
  match type with
  | JStr s => ("Successfully processed " ++ s ++ " upload")%string
  | _ => ""
  end.

(** A stored document as the value handed to the broker: [_id] and the
    schema paths that are set (the store's own bookkeeping keys are left
    out). *)
Definition fieldProp (k : string) (f : Field string) : list (string * JVal) :=
  match f with
  | Absent => []
  | Null => [(k, JNull)]
  | Val s => [(k, JStr s)]
  end.

Definition mixedProp (k : string) (v : JVal) : list (string * JVal) :=
  match v with
  | JUndefined => []
  | _ => [(k, v)]
  end.

Definition docValue (e : Evaluation) : JVal :=
  JObj ([("_id", JObjectId (_id e))]
        ++ fieldProp "teamName" (teamName e)
        ++ fieldProp "evaluatorUSN" (evaluatorUSN e)
        ++ mixedProp "ratings" (ratings e)
        ++ fieldProp "feedback" (feedback e)
        ++ [("submittedAt", JDate (submittedAt e))]).

(** The [case 'evaluationSubmitted':] arm. *)
Definition submitEvaluation (data : JVal) : M unit :=
  (* Store evaluation in database *)
  team <- lift (getProp data "team") ;;
  evaluator <- lift (getProp data "evaluator") ;;
  ev1 <- lift (getProp data "evaluation") ;;
  rates <- lift (getProp ev1 "ratings") ;;
  ev2 <- lift (getProp data "evaluation") ;;
  comment <- lift (getProp ev2 "feedback") ;;
  today <- reads clock ;;
  evaluation <- Evaluation_create team evaluator rates comment today ;;
  (* Emit the stored evaluation to all clients *)
  pusher_trigger "presentation" "evaluationSubmitted"
    (JObj (assign "evaluationId" (JObjectId (_id evaluation)) (spread data))) ;;
  (* Fetch all evaluations for the team and emit to admin *)
  team1 <- lift (getProp data "team") ;;
  teamEvaluations <- Evaluation_find team1 ;;
  team2 <- lift (getProp data "team") ;;
  pusher_trigger "presentation" "teamEvaluations"
    (JObj [("team", team2);
           ("evaluations", JArr (map docValue teamEvaluations))]).

(** The body of the [try] block. *)
Definition uploadTry (reqBody : JVal) : M Response :=
  connectDB ;;
  event <- lift (getProp reqBody "event") ;;
  data <- lift (getProp reqBody "data") ;;
  type <- lift (getProp reqBody "type") ;;
  (* Handle CSV upload *)
  if bulkType type then
    count <- lift (getProp data "length") ;;
    ret (mkResponse 200
           (JObj [("message", JStr (uploadMessage type)); ("count", count)]))
  else
    (* Handle different events *)
    match event with
    | JStr name =>
        if existsb (String.eqb name) relayEvents then
          pusher_trigger "presentation" name data ;;
          ret (mkResponse 200 (message "Event processed successfully"))
        else if String.eqb name "evaluationSubmitted" then
          submitEvaluation data ;;
          ret (mkResponse 200 (message "Event processed successfully"))
        else ret (mkResponse 400 (message "Invalid event type"))
    | _ => ret (mkResponse 400 (message "Invalid event type"))
    end.

Definition upload (reqBody : JVal) : M Response :=
  tryCatch (uploadTry reqBody)
    (fun error =>
       modify (logLine (LogEventError error)) ;;
       ret (mkResponse 500 (message "Internal server error"))).

(** ** [GET /health] *)

Definition health : M Response :=
  ret (mkResponse 200 (JObj [("status", JStr "ok")])).

(** ** [GET /feedbacks] *)

(** What reading a schema path of a document gives. *)
Definition fieldValue (f : Field string) : JVal :=
  match f with
  | Absent => JUndefined
  | Null => JNull
  | Val s => JStr s
  end.

(** The property key [acc[v]] uses for a value read from a [String] path. *)
Definition propertyKey (f : Field string) : string :=
  match f with
  | Absent => "undefined"
  | Null => "null"
  | Val s => s
  end.

(** [obj[k] = v] *)
Definition setProp (obj : JVal) (k : string) (v : JVal) : JVal :=
  match obj with
  | JObj ps => JObj (assign k v ps)
  | _ => obj
  end.

(** [target.push(x)]: only an array has [push]. *)
Definition push (target x : JVal) : Result JVal :=
  match target with
  | JArr l => Ok (JArr (l ++ [x]))
  | _ => Throw TypeError
  end.

Definition feedbackEntry (evaluation : Evaluation) : JVal :=
  JObj [("evaluatorUSN", fieldValue (evaluatorUSN evaluation));
        ("ratings", ratings evaluation);
        ("feedback", fieldValue (feedback evaluation));
        ("submittedAt", JDate (submittedAt evaluation))].

(** The callback of [evaluations.reduce].  The array the callback pushes
    to lives inside [acc]; here the grown array is written back. *)
Definition groupStep (acc : JVal) (evaluation : Evaluation) : Result JVal :=
  let key := propertyKey (teamName evaluation) in
  match getProp acc key with
  | Throw e => Throw e
  | Ok current =>
      let acc1 := if negb (truthy current) then setProp acc key (JArr [])
                  else acc in
      match getProp acc1 key with
      | Throw e => Throw e
      | Ok target =>
          match push target (feedbackEntry evaluation) with
          | Throw e => Throw e
          | Ok grown => Ok (setProp acc1 key grown)
          end
      end
  end.

(** [evaluations.reduce(callback, acc)] *)
Fixpoint reduce (evaluations : list Evaluation) (acc : JVal) : Result JVal :=
  match evaluations with
  | [] => Ok acc
  | evaluation :: rest =>
      match groupStep acc evaluation with
      | Throw e => Throw e
      | Ok acc' => reduce rest acc'
      end
  end.

Definition feedbacks : M Response :=
  tryCatch
    (connectDB ;;
     evaluations <- Evaluation_findAll ;;
     (* Group evaluations by team name *)
     groupedFeedbacks <- lift (reduce evaluations (JObj [])) ;;
     ret (mkResponse 200 groupedFeedbacks))
    (fun error =>
       modify (logLine (LogFeedbacksError error)) ;;
       ret (mkResponse 500 (message "Internal server error"))).

End Handlers.

(** ** A store client to run the handlers with *)

(** One admissible client, for running the handlers on concrete requests.
    Beyond the laws of [DocumentStore] its choices say nothing about the
    real client. *)

(** At a [String] path strings, [null] and [undefined] are taken as they
    are and anything else is rejected; at the [ratings] path an empty
    object is dropped and any other value is kept as it is. *)
Definition strictCast (v : JVal) : option (Field string) :=
  match v with
  | JStr s => Some (Val s)
  | JNull => Some Null
  | JUndefined => Some Absent
  | _ => None
  end.

Definition strictFind (v : JVal) (ds : list Evaluation)
  : option (list Evaluation) :=
  match v with
  | JStr s => Some (filter (hasTeam s) ds)
  | _ => None
  end.

Definition strictMixed (v : JVal) : JVal :=
  match v with
  | JObj [] => JUndefined
  | _ => v
  end.

#[export] Instance strictStore : DocumentStore :=
  {| castString := strictCast;
     castString_JStr := fun s => eq_refl;
     keepMixed := strictMixed;
     keepMixed_plain :=
       fun v =>
         match v as v0 return plainRatings v0 = true -> strictMixed v0 = v0 with
         | JObj [] => fun H => match Bool.diff_false_true H with end
         | _ => fun _ => eq_refl
         end;
     keepMixed_empty := eq_refl;
     findByTeam := strictFind;
     findByTeam_JStr := fun s ds => eq_refl |}.

(** A world with an established connection, an empty collection and no
    failing operation. *)
Definition quiet : Op -> bool := fun _ => false.

Definition world0 : World := mkWorld 1 [] 100 1700000000000 quiet [] [] [].

(** The request of the specification's example, for a given team. *)
Definition submit (team : string) : JVal :=
  JObj [("event", JStr "evaluationSubmitted");
        ("data",
         JObj [("team", JStr team);
               ("evaluator", JStr "U1");
               ("evaluation",
                JObj [("ratings", JObj [("clarity", JNum 5)]);
                      ("feedback", JStr "well paced")])])].

(** The same world with the broker refusing every publish. *)
Definition brokerDown : Op -> bool :=
  fun op => match op with OpTrigger _ => true | _ => false end.

Definition worldBrokerDown : World :=
  mkWorld 1 [] 100 1700000000000 brokerDown [] [] [].

(** The world before the first request: not yet connected, store
    reachable. *)
Definition worldCold : World := setReadyState 0 world0.

(** Worlds in which one dependency is failing. *)
Definition storeRefuses : Op -> bool :=
  fun op => match op with OpCreate => true | _ => false end.

Definition queryFails : Op -> bool :=
  fun op => match op with OpFind => true | _ => false end.

Definition unreachable : Op -> bool :=
  fun op => match op with OpConnect => true | _ => false end.

Definition worldStoreRefuses : World :=
  mkWorld 1 [] 100 1700000000000 storeRefuses [] [] [].

Definition worldQueryFails : World :=
  mkWorld 1 [] 100 1700000000000 queryFails [] [] [].

Definition worldUnreachable : World :=
  mkWorld 0 [] 100 1700000000000 unreachable [] [] [].

(** A collection with a document that has no team name beside one of a
    team called ["undefined"]. *)
Definition worldNameless : World :=
  mkWorld 1
    [ mkEvaluation 7 Absent (Val "U1") (JObj []) (Val "first") 1600000000000;
      mkEvaluation 8 (Val "undefined") (Val "U2") (JObj []) (Val "second")
                   1600000000001;
      mkEvaluation 9 (Val "T1") (Val "U3") (JObj []) (Val "third")
                   1600000000002 ]
    100 1700000000000 quiet [] [] [].

(** ** Vocabulary of the statements *)

(** The external calls [connectDB] issues from a world. *)
Definition connectCalls (w : World) : list Call :=
  if readyState w =? 0 then [CallConnect] else [].

(** The world a successful [connectDB] leaves. *)
Definition ensured (w : World) : World :=
  if readyState w =? 0
  then logLine LogConnected (setReadyState 1 (recordCall CallConnect w))
  else w.

(** The store is connected or can be. *)
Definition connects (w : World) : Prop :=
  readyState w <> 0 \/ faulty w OpConnect = false.

Definition ok200 : Response :=
  mkResponse 200 (message "Event processed successfully").

Definition error500 : Response :=
  mkResponse 500 (message "Internal server error").

(** Every event name the [switch] has a [case] for. *)
Definition eventNames : list string :=
  relayEvents ++ ["evaluationSubmitted"].

(** A submission payload: an object with a string [team], a string
    [evaluator] and an [evaluation] object holding [ratings] and a string
    [feedback]. *)
Definition submission (props : list (string * JVal)) (team evaluator : string)
           (rates : JVal) (comment : string) : Prop :=
  lookup "team" props = Some (JStr team)
  /\ lookup "evaluator" props = Some (JStr evaluator)
  /\ exists inner,
       lookup "evaluation" props = Some (JObj inner)
       /\ lookup "ratings" inner = Some rates
       /\ lookup "feedback" inner = Some (JStr comment).

(** The document a submission is stored as in world [w]; [rates] is what
    the store keeps of the submitted ratings. *)
Definition stored (w : World) (team evaluator : string) (rates : JVal)
           (comment : string) : Evaluation :=
  mkEvaluation (nextId w) (Val team) (Val evaluator) rates (Val comment)
               (clock w).

(** The first broadcast of a submission: the payload with the stored
    document's id merged in. *)
Definition submittedBroadcast (w : World) (props : list (string * JVal))
  : Broadcast :=
  mkBroadcast "presentation" "evaluationSubmitted"
    (JObj (assign "evaluationId" (JObjectId (nextId w)) props)).

(** The second broadcast: the documents [ds] of the team. *)
Definition teamBroadcast (team : string) (ds : list Evaluation) : Broadcast :=
  mkBroadcast "presentation" "teamEvaluations"
    (JObj [("team", JStr team); ("evaluations", JArr (map docValue ds))]).

(** The entries [GET /feedbacks] owes team [t]: one per stored document
    of the team, oldest first. *)
Definition teamEntries (t : string) (ds : list Evaluation) : list JVal :=
  map feedbackEntry (filter (hasTeam t) ds).

(** A document whose team name is a string that [Object.prototype] does
    not already answer to. *)
Definition plainTeam (e : Evaluation) : bool :=
  match teamName e with
  | Val s => negb (inherited s)
  | _ => false
  end.

(** The array an accumulator holds under [t] so far. *)
Definition arrayAt (t : string) (ps : list (string * JVal)) : list JVal :=
  match lookup t ps with
  | Some (JArr l) => l
  | _ => []
  end.

Definition hasKey (t : string) (ps : list (string * JVal)) : bool :=
  match lookup t ps with
  | Some _ => true
  | None => false
  end.

(** Every own property of the accumulator is an array. *)
Definition allArrays (ps : list (string * JVal)) : Prop :=
  forall k v, lookup k ps = Some v -> exists l, v = JArr l.

(** No own property of the accumulator shadows an inherited one. *)
Definition noInheritedKeys (ps : list (string * JVal)) : Prop :=
  forall k, hasKey k ps = true -> inherited k = false.

(** [m] relates what [proj] shows of the world before it runs to what it
    shows after, by [P], whether [m] returns or throws. *)
Definition tracks {A B : Type} (proj : World -> B) (P : B -> B -> Prop)
           (m : M A) : Prop :=
  forall w r w', m w = (r, w') -> P (proj w) (proj w').

(** Every value [m] returns satisfies [Q]. *)
Definition yields {A : Type} (Q : A -> Prop) (m : M A) : Prop :=
  forall w a w', m w = (Ok a, w') -> Q a.

(** [y] is [x] with at most [n] items added at the end, each satisfying
    [Q]. *)
Definition grownBy {X : Type} (n : nat) (Q : X -> Prop) (x y : list X) : Prop :=
  exists l, y = x ++ l /\ (List.length l <= n)%nat /\ Forall Q l.

Definition anyItem {X : Type} : X -> Prop := fun _ => True.

Definition onPresentation (b : Broadcast) : Prop :=
  channel b = "presentation".

(** [v] is [undefined] or [null]. *)
Definition nullish (v : JVal) : bool :=
  match v with
  | JUndefined | JNull => true
  | _ => false
  end.

(** The key [GET /feedbacks] files a document under. *)
Definition keyOf (e : Evaluation) : string := propertyKey (teamName e).

Definition filedUnder (k : string) (e : Evaluation) : bool :=
  String.eqb (keyOf e) k.

(** No stored document is filed under a name objects inherit. *)
Definition groupable (ds : list Evaluation) : bool :=
  forallb (fun e => negb (inherited (keyOf e))) ds.

(** The world a submission leaves when every call succeeds; [kept] is
    what the store keeps of the ratings. *)
Definition afterSubmission (w : World) (props : list (string * JVal))
           (team evaluator : string) (rates kept : JVal) (comment : string)
  : World :=
  let doc := stored (ensured w) team evaluator kept comment in
  let first := submittedBroadcast (ensured w) props in
  let w1 :=
    insertDoc doc
      (recordCall
         (CallCreate (JStr team) (JStr evaluator) rates (JStr comment)
                     (clock (ensured w))) (ensured w)) in
  let w2 :=
    deliver first
      (recordCall (CallTrigger "presentation" "evaluationSubmitted"
                               (payload first)) w1) in
  let w3 := recordCall (CallFind (Some (JStr team))) w2 in
  let second := teamBroadcast team (filter (hasTeam team) (docs w3)) in
  deliver second
    (recordCall (CallTrigger "presentation" "teamEvaluations"
                             (payload second)) w3).

(** * Properties *)

(** ** Own properties *)

Lemma lookup_assign_same (k : string) (v : JVal) (ps : list (string * JVal)) :
  lookup k (assign k v ps) = Some v.
Proof.
  induction ps as [|[k' v'] rest IH]; simpl.
  - now rewrite String.eqb_refl.
  - destruct (String.eqb k k') eqn:E; simpl.
    + now rewrite String.eqb_refl.
    + now rewrite E.
Qed.

Lemma lookup_assign_other (k k0 : string) (v : JVal)
      (ps : list (string * JVal)) :
  k0 <> k -> lookup k0 (assign k v ps) = lookup k0 ps.
Proof.
  intros Hne.
  assert (Hk : String.eqb k0 k = false) by now apply String.eqb_neq.
  induction ps as [|[k' v'] rest IH]; simpl.
  - now rewrite Hk.
  - destruct (String.eqb k k') eqn:E; simpl.
    + apply String.eqb_eq in E; subst k'. now rewrite Hk.
    + now rewrite IH.
Qed.

(** A value whose property can be read lets every property be read. *)
Lemma getProp_total (v : JVal) (k k' : string) (x : JVal) :
  getProp v k = Ok x -> exists y, getProp v k' = Ok y.
Proof.
  destruct v; simpl; try discriminate; intros _; try (eexists; reflexivity).
  destruct (lookup k' props); eexists; reflexivity.
Qed.

(** ** The connection guard *)

Lemma connectDB_connected (w : World) :
  readyState w <> 0 -> connectDB w = (Ok tt, w).
Proof.
  intros H. apply Z.eqb_neq in H.
  unfold connectDB, tryCatch, bind, reads. now rewrite H.
Qed.

Lemma connectDB_attempt (w : World) :
  readyState w = 0 ->
  connectDB w =
    if faulty w OpConnect
    then (Throw StoreError,
          logLine (LogConnectionError StoreError) (recordCall CallConnect w))
    else (Ok tt, logLine LogConnected (setReadyState 1 (recordCall CallConnect w))).
Proof.
  intros H.
  cbv [connectDB tryCatch bind reads mongoose_connect await modify].
  rewrite H. cbn.
  destruct (faulty w OpConnect); reflexivity.
Qed.

Lemma connectDB_ok (w : World) :
  connects w -> connectDB w = (Ok tt, ensured w).
Proof.
  intros Hc. unfold ensured.
  destruct (readyState w =? 0) eqn:E.
  - apply Z.eqb_eq in E. rewrite (connectDB_attempt w E).
    destruct Hc as [Hc|Hc]; [contradiction|now rewrite Hc].
  - apply Z.eqb_neq in E. now apply connectDB_connected.
Qed.

Lemma connectDB_calls (w : World) :
  calls (snd (connectDB w)) = calls w ++ connectCalls w.
Proof.
  unfold connectCalls. destruct (readyState w =? 0) eqn:E.
  - apply Z.eqb_eq in E. rewrite (connectDB_attempt w E).
    destruct (faulty w OpConnect); reflexivity.
  - apply Z.eqb_neq in E. rewrite (connectDB_connected w E). cbn.
    now rewrite app_nil_r.
Qed.

Lemma ensured_docs (w : World) : docs (ensured w) = docs w.
Proof. unfold ensured. now destruct (readyState w =? 0). Qed.

Lemma ensured_delivered (w : World) : delivered (ensured w) = delivered w.
Proof. unfold ensured. now destruct (readyState w =? 0). Qed.

Lemma ensured_faulty (w : World) : faulty (ensured w) = faulty w.
Proof. unfold ensured. now destruct (readyState w =? 0). Qed.

Lemma ensured_nextId (w : World) : nextId (ensured w) = nextId w.
Proof. unfold ensured. now destruct (readyState w =? 0). Qed.

Lemma ensured_clock (w : World) : clock (ensured w) = clock w.
Proof. unfold ensured. now destruct (readyState w =? 0). Qed.

Lemma ensured_calls (w : World) :
  calls (ensured w) = calls w ++ connectCalls w.
Proof.
  unfold ensured, connectCalls. destruct (readyState w =? 0); cbn; auto.
  now rewrite app_nil_r.
Qed.

(** C7.  [connectDB] attempts a connection only from the disconnected
    state (readyState 0): in every other state it does nothing and leaves
    the world, its connection state included, as it was; the connect call
    is issued exactly when the state is 0; and once a call has succeeded,
    calling again changes nothing. *)
Theorem connectDB_idempotent (w : World) :
  (readyState w <> 0 -> connectDB w = (Ok tt, w))
  /\ calls (snd (connectDB w)) =
       calls w ++ (if readyState w =? 0 then [CallConnect] else [])
  /\ (fst (connectDB w) = Ok tt ->
      connectDB (snd (connectDB w)) = connectDB w).
Proof.
  split; [apply connectDB_connected|].
  split; [apply connectDB_calls|].
  destruct (Z.eq_dec (readyState w) 0) as [E|E].
  - rewrite (connectDB_attempt w E).
    destruct (faulty w OpConnect); cbn [fst snd]; [discriminate|].
    intros _. now apply connectDB_connected.
  - rewrite (connectDB_connected w E). cbn [fst snd]. intros _.
    now apply connectDB_connected.
Qed.

Lemma connectDB_idempotent_witness :
  connectDB (setReadyState 2 world0) = (Ok tt, setReadyState 2 world0)
  /\ connectDB (snd (connectDB (setReadyState 0 world0)))
     = connectDB (setReadyState 0 world0).
Proof.
  split.
  - apply (proj1 (connectDB_idempotent (setReadyState 2 world0))).
    cbn. discriminate.
  - apply (proj2 (proj2 (connectDB_idempotent (setReadyState 0 world0)))).
    reflexivity.
Defined.

(** C8.  [GET /health] answers [{status: "ok"}] (status 200) in every
    world, whatever the store's connection state and whichever operations
    are failing, and touches nothing: no call is issued. *)
Theorem health_always_ok (w : World) :
  health w = (Ok (mkResponse 200 (JObj [("status", JStr "ok")])), w).
Proof. reflexivity. Qed.

(** ** The dispatcher *)

Section Dispatcher.

Context {store : DocumentStore}.

(** The [catch] block turns whatever the [try] block throws into a 500. *)
Lemma upload_catch (reqBody : JVal) (w : World) :
  upload reqBody w =
    match uploadTry reqBody w with
    | (Ok r, w') => (Ok r, w')
    | (Throw e, w') => (Ok error500, logLine (LogEventError e) w')
    end.
Proof.
  unfold upload, tryCatch. destruct (uploadTry reqBody w) as [[r|e] w']; reflexivity.
Qed.

(** Past a successful [connectDB] the handler reads the three properties
    and goes on in the world [ensured w]. *)
Lemma uploadTry_reads (reqBody event data type : JVal) (w : World) :
  connects w ->
  getProp reqBody "event" = Ok event ->
  getProp reqBody "data" = Ok data ->
  getProp reqBody "type" = Ok type ->
  uploadTry reqBody w =
    (if bulkType type then
       count <- lift (getProp data "length") ;;
       ret (mkResponse 200
              (JObj [("message", JStr (uploadMessage type)); ("count", count)]))
     else
       match event with
       | JStr name =>
           if existsb (String.eqb name) relayEvents then
             pusher_trigger "presentation" name data ;; ret ok200
           else if String.eqb name "evaluationSubmitted" then
             submitEvaluation data ;; ret ok200
           else ret (mkResponse 400 (message "Invalid event type"))
       | _ => ret (mkResponse 400 (message "Invalid event type"))
       end) (ensured w).
Proof.
  intros Hc He Hd Ht.
  unfold uploadTry. unfold bind at 1. rewrite (connectDB_ok w Hc).
  unfold bind at 1. unfold lift at 1. rewrite He.
  unfold bind at 1. unfold lift at 1. rewrite Hd.
  unfold bind at 1. unfold lift at 1. rewrite Ht.
  reflexivity.
Qed.

Lemma existsb_eqb_In (name : string) (l : list string) :
  existsb (String.eqb name) l = true <-> In name l.
Proof.
  rewrite existsb_exists. split.
  - intros [x [Hin Heq]]. apply String.eqb_eq in Heq. now subst.
  - intros Hin. exists name. split; [assumption|apply String.eqb_refl].
Qed.

(** C3 (amended).  An event name the switch has no case for, with no bulk
    type, while the store is connected or can be: the answer is 400
    "Invalid event type"; nothing is broadcast, no document is stored, and
    no create, find or trigger call is issued.  The one external call there
    can be is the connect of the guard, issued when the connection state
    is 0. *)
Theorem unknown_event_rejected (w : World) (reqBody event data type : JVal) :
  connects w ->
  getProp reqBody "event" = Ok event ->
  getProp reqBody "data" = Ok data ->
  getProp reqBody "type" = Ok type ->
  bulkType type = false ->
  (forall name, event = JStr name -> ~ In name eventNames) ->
  exists w',
    upload reqBody w =
      (Ok (mkResponse 400 (message "Invalid event type")), w')
    /\ delivered w' = delivered w
    /\ docs w' = docs w
    /\ calls w' = calls w ++ connectCalls w.
Proof.
  intros Hc He Hd Ht Hb Hev.
  exists (ensured w).
  rewrite upload_catch, (uploadTry_reads reqBody event data type w Hc He Hd Ht), Hb.
  split; [|split; [apply ensured_delivered|split;
                   [apply ensured_docs|apply ensured_calls]]].
  destruct event as [| | | |name| | | | |]; try reflexivity.
  specialize (Hev name eq_refl).
  destruct (existsb (String.eqb name) relayEvents) eqn:Er.
  - exfalso. apply Hev. unfold eventNames. apply in_or_app. left.
    now apply existsb_eqb_In.
  - destruct (String.eqb name "evaluationSubmitted") eqn:Es; [|reflexivity].
    exfalso. apply Hev. unfold eventNames. apply in_or_app. right.
    apply String.eqb_eq in Es. subst. now left.
Qed.

(** *** What the awaited operations do *)

Lemma pusher_trigger_ok (ch ev : string) (data : JVal) (w : World) :
  faulty w (OpTrigger ev) = false ->
  pusher_trigger ch ev data w =
    (Ok tt, deliver (mkBroadcast ch ev data)
              (recordCall (CallTrigger ch ev data) w)).
Proof.
  intros H. cbv [pusher_trigger await bind modify reads]. cbn. now rewrite H.
Qed.

Lemma pusher_trigger_fail (ch ev : string) (data : JVal) (w : World) :
  faulty w (OpTrigger ev) = true ->
  pusher_trigger ch ev data w =
    (Throw BrokerError, recordCall (CallTrigger ch ev data) w).
Proof.
  intros H. cbv [pusher_trigger await bind modify reads]. cbn. now rewrite H.
Qed.

Lemma Evaluation_create_ok (team evaluator comment : string) (rates : JVal)
      (at_ : Z) (w : World) :
  faulty w OpCreate = false ->
  let doc := mkEvaluation (nextId w) (Val team) (Val evaluator)
                          (keepMixed rates) (Val comment) at_ in
  Evaluation_create (JStr team) (JStr evaluator) rates (JStr comment) at_ w =
    (Ok doc,
     insertDoc doc
       (recordCall
          (CallCreate (JStr team) (JStr evaluator) rates (JStr comment) at_) w)).
Proof.
  intros H. cbv [Evaluation_create await bind modify reads]. cbn.
  rewrite H. cbn. rewrite !castString_JStr. reflexivity.
Qed.

Lemma Evaluation_find_ok (team : string) (w : World) :
  faulty w OpFind = false ->
  Evaluation_find (JStr team) w =
    (Ok (filter (hasTeam team) (docs w)),
     recordCall (CallFind (Some (JStr team))) w).
Proof.
  intros H. cbv [Evaluation_find await bind modify reads]. cbn.
  rewrite H. cbn. rewrite findByTeam_JStr. reflexivity.
Qed.

Lemma Evaluation_find_fail (team : JVal) (w : World) :
  faulty w OpFind = true ->
  Evaluation_find team w =
    (Throw StoreError, recordCall (CallFind (Some team)) w).
Proof.
  intros H. cbv [Evaluation_find await bind modify reads]. cbn. now rewrite H.
Qed.

(** C2 (amended).  While the store is connected or can be and the broker
    takes the publish, a relay event ([presentationStarting],
    [presentationStarted], [presentationEnded], [timeSync],
    [evaluationForm], [presentationReset]) with no bulk type is broadcast
    once, on the channel [presentation], under its own name and with the
    request's [data] as it came; no document is stored, the only external
    call beyond the connection guard is that one trigger, and the answer
    is the 200 acknowledgment. *)
Theorem relay_event_broadcast_once
        (w : World) (reqBody data type : JVal) (name : string) :
  connects w ->
  faulty w (OpTrigger name) = false ->
  getProp reqBody "event" = Ok (JStr name) ->
  getProp reqBody "data" = Ok data ->
  getProp reqBody "type" = Ok type ->
  bulkType type = false ->
  In name relayEvents ->
  exists w',
    upload reqBody w = (Ok ok200, w')
    /\ delivered w' = delivered w ++ [mkBroadcast "presentation" name data]
    /\ docs w' = docs w
    /\ calls w' =
         calls w ++ connectCalls w ++ [CallTrigger "presentation" name data].
Proof.
  intros Hc Hf He Hd Ht Hb Hin.
  apply existsb_eqb_In in Hin.
  rewrite upload_catch,
    (uploadTry_reads reqBody (JStr name) data type w Hc He Hd Ht), Hb, Hin.
  unfold bind at 1. rewrite pusher_trigger_ok by now rewrite ensured_faulty.
  eexists. split; [reflexivity|]. cbn.
  rewrite ensured_delivered, ensured_docs, ensured_calls, <- app_assoc.
  auto.
Qed.

(** C4 (amended).  While the store is connected or can be, a body whose
    [type] is ['participants'] or ['teams'] and whose [data] is a list is
    acknowledged with 200 and the length of the list as [count], whatever
    [event] the body also names; no document is stored, nothing is
    broadcast, and beyond the connection guard no external call is
    issued. *)
Theorem bulk_upload_acknowledged
        (w : World) (reqBody : JVal) (kind : string) (items : list JVal) :
  connects w ->
  getProp reqBody "type" = Ok (JStr kind) ->
  kind = "participants" \/ kind = "teams" ->
  getProp reqBody "data" = Ok (JArr items) ->
  exists w',
    upload reqBody w =
      (Ok (mkResponse 200
             (JObj [("message",
                     JStr ("Successfully processed " ++ kind ++ " upload")%string);
                    ("count", JNum (Z.of_nat (List.length items)))])), w')
    /\ docs w' = docs w
    /\ delivered w' = delivered w
    /\ calls w' = calls w ++ connectCalls w.
Proof.
  intros Hc Ht Hk Hd.
  destruct (getProp_total reqBody "type" "event" _ Ht) as [event He].
  exists (ensured w).
  rewrite upload_catch,
    (uploadTry_reads reqBody event (JArr items) (JStr kind) w Hc He Hd Ht).
  replace (bulkType (JStr kind)) with true
    by (destruct Hk; subst kind; reflexivity).
  split; [reflexivity|].
  split; [apply ensured_docs|split; [apply ensured_delivered|apply ensured_calls]].
Qed.

(** When the connection guard throws, the [catch] block of the handler
    answers 500 and nothing else has happened. *)
Lemma upload_guard_throws (reqBody : JVal) (w : World) :
  ~ connects w ->
  upload reqBody w =
    (Ok error500,
     logLine (LogEventError StoreError)
       (logLine (LogConnectionError StoreError) (recordCall CallConnect w))).
Proof.
  intros Hn.
  assert (E : readyState w = 0).
  { destruct (Z.eq_dec (readyState w) 0); [assumption|].
    exfalso. apply Hn. now left. }
  assert (F : faulty w OpConnect = true).
  { destruct (faulty w OpConnect) eqn:F; [reflexivity|].
    exfalso. apply Hn. now right. }
  rewrite upload_catch. unfold uploadTry. unfold bind at 1.
  rewrite (connectDB_attempt w E), F. reflexivity.
Qed.

Lemma connects_dec (w : World) : connects w \/ ~ connects w.
Proof.
  unfold connects.
  destruct (Z.eq_dec (readyState w) 0) as [E|E]; [|now left; left].
  destruct (faulty w OpConnect); [|now left; right].
  right. intros [H|H]; [contradiction|discriminate].
Qed.

(** A [try] block that, past the guard, throws a TypeError before it has
    touched anything: the answer is 500 and nothing but the guard has
    run. *)
Lemma upload_throws_early (reqBody : JVal) (w : World) :
  (connects w -> uploadTry reqBody w = (Throw TypeError, ensured w)) ->
  exists w',
    upload reqBody w = (Ok error500, w')
    /\ docs w' = docs w
    /\ delivered w' = delivered w
    /\ calls w' = calls w ++ connectCalls w
    /\ (connects w ->
        console w' = console (ensured w) ++ [LogEventError TypeError]).
Proof.
  intros Hrun. destruct (connects_dec w) as [Hc|Hn].
  - exists (logLine (LogEventError TypeError) (ensured w)).
    rewrite upload_catch, (Hrun Hc). split; [reflexivity|]. cbn.
    rewrite ensured_docs, ensured_delivered, ensured_calls. auto.
  - rewrite (upload_guard_throws reqBody w Hn).
    eexists. split; [reflexivity|]. cbn.
    assert (E : readyState w = 0).
    { destruct (Z.eq_dec (readyState w) 0); [assumption|].
      exfalso. apply Hn. now left. }
    unfold connectCalls. rewrite E. cbn. repeat split; auto.
    intros Hc. contradiction.
Qed.

(** C10.  A body whose [type] is ['participants'] or ['teams'] and which
    has no [data]: the answer is 500 "Internal server error", not the
    acknowledgment; nothing is stored or broadcast.  When the connection
    guard passes, the error that reaches the [catch] block is the
    TypeError of reading [length] off [undefined]. *)
Theorem bulk_upload_without_data
        (w : World) (reqBody : JVal) (kind : string) :
  getProp reqBody "type" = Ok (JStr kind) ->
  kind = "participants" \/ kind = "teams" ->
  getProp reqBody "data" = Ok JUndefined ->
  exists w',
    upload reqBody w = (Ok error500, w')
    /\ docs w' = docs w
    /\ delivered w' = delivered w
    /\ calls w' = calls w ++ connectCalls w
    /\ (connects w ->
        console w' = console (ensured w) ++ [LogEventError TypeError]).
Proof.
  intros Ht Hk Hd. apply upload_throws_early. intros Hc.
  destruct (getProp_total reqBody "type" "event" _ Ht) as [event He].
  rewrite (uploadTry_reads reqBody event JUndefined (JStr kind) w Hc He Hd Ht).
  replace (bulkType (JStr kind)) with true
    by (destruct Hk; subst kind; reflexivity).
  reflexivity.
Qed.

(** *** Submissions *)

(** With a well-formed payload and a store that takes the document, the
    [evaluationSubmitted] arm stores it and goes on to the broadcasts. *)
Lemma submitEvaluation_stores
      (w : World) (props : list (string * JVal)) (team evaluator : string)
      (rates : JVal) (comment : string) :
  submission props team evaluator rates comment ->
  faulty w OpCreate = false ->
  submitEvaluation (JObj props) w =
    (pusher_trigger "presentation" "evaluationSubmitted"
       (JObj (assign "evaluationId" (JObjectId (nextId w)) props)) ;;
     teamEvaluations <- Evaluation_find (JStr team) ;;
     pusher_trigger "presentation" "teamEvaluations"
       (JObj [("team", JStr team);
              ("evaluations", JArr (map docValue teamEvaluations))]))
      (insertDoc (stored w team evaluator (keepMixed rates) comment)
         (recordCall
            (CallCreate (JStr team) (JStr evaluator) rates (JStr comment)
                        (clock w)) w)).
Proof.
  intros (Hteam & Hevaluator & inner & Hinner & Hrates & Hcomment) Hf.
  unfold submitEvaluation.
  cbv [bind lift getProp reads]. rewrite Hteam, Hevaluator, Hinner.
  rewrite Hrates, Hcomment.
  rewrite (Evaluation_create_ok team evaluator comment rates (clock w) w Hf).
  reflexivity.
Qed.


(** C5.  The document is stored, then a later step fails (the first
    trigger, the find, or the second trigger): the request is answered
    with the generic 500 and the document stays in the collection as the
    store saved it, last in line; nothing takes it out again. *)
Theorem stored_document_survives_failure
        (w : World) (reqBody type : JVal) (props : list (string * JVal))
        (team evaluator : string) (rates : JVal) (comment : string) :
  connects w ->
  faulty w OpCreate = false ->
  faulty w (OpTrigger "evaluationSubmitted") = true
  \/ faulty w OpFind = true
  \/ faulty w (OpTrigger "teamEvaluations") = true ->
  getProp reqBody "event" = Ok (JStr "evaluationSubmitted") ->
  getProp reqBody "data" = Ok (JObj props) ->
  getProp reqBody "type" = Ok type ->
  bulkType type = false ->
  submission props team evaluator rates comment ->
  exists w',
    upload reqBody w = (Ok error500, w')
    /\ docs w' = docs w ++ [stored w team evaluator (keepMixed rates) comment].
Proof.
  intros Hc Hcreate Hlater He Hd Ht Hb Hsub.
  rewrite upload_catch,
    (uploadTry_reads reqBody _ _ type w Hc He Hd Ht), Hb.
  cbn [existsb relayEvents String.eqb Ascii.eqb Bool.eqb orb].
  unfold bind at 1.
  rewrite (submitEvaluation_stores (ensured w) props team evaluator rates
             comment Hsub) by now rewrite ensured_faulty.
  assert (Hdocs : forall w', docs w' = docs (ensured w) ++
                    [stored (ensured w) team evaluator (keepMixed rates) comment] ->
                    docs w' = docs w ++ [stored w team evaluator (keepMixed rates) comment]).
  { intros w' ->. unfold stored.
    now rewrite ensured_docs, ensured_nextId, ensured_clock. }
  unfold bind at 1.
  destruct (faulty w (OpTrigger "evaluationSubmitted")) eqn:F1.
  { rewrite pusher_trigger_fail by (cbn; now rewrite ensured_faulty).
    eexists. split; [reflexivity|]. now apply Hdocs. }
  rewrite pusher_trigger_ok by (cbn; now rewrite ensured_faulty).
  unfold bind at 1.
  destruct (faulty w OpFind) eqn:F2.
  { rewrite Evaluation_find_fail by (cbn; now rewrite ensured_faulty).
    eexists. split; [reflexivity|]. now apply Hdocs. }
  rewrite Evaluation_find_ok by (cbn; now rewrite ensured_faulty).
  destruct Hlater as [Hl|[Hl|Hl]]; try discriminate.
  rewrite pusher_trigger_fail by (cbn; now rewrite ensured_faulty).
  eexists. split; [reflexivity|]. now apply Hdocs.
Qed.

(** C9 (amended).  An [evaluationSubmitted] event with no bulk type whose
    [data] has no [evaluation]: the answer is 500, the collection and the
    broadcasts are as before, and no create call has been issued.  When
    the connection guard passes, the error caught is the TypeError of
    reading [ratings] off [undefined]. *)
Theorem submission_without_evaluation
        (w : World) (reqBody data type : JVal) :
  getProp reqBody "event" = Ok (JStr "evaluationSubmitted") ->
  getProp reqBody "data" = Ok data ->
  getProp reqBody "type" = Ok type ->
  bulkType type = false ->
  getProp data "evaluation" = Ok JUndefined ->
  exists w',
    upload reqBody w = (Ok error500, w')
    /\ docs w' = docs w
    /\ delivered w' = delivered w
    /\ calls w' = calls w ++ connectCalls w
    /\ (connects w ->
        console w' = console (ensured w) ++ [LogEventError TypeError]).
Proof.
  intros He Hd Ht Hb Hev. apply upload_throws_early. intros Hc.
  rewrite (uploadTry_reads reqBody _ _ type w Hc He Hd Ht), Hb.
  cbn [existsb relayEvents String.eqb Ascii.eqb Bool.eqb orb].
  destruct (getProp_total data "evaluation" "team" _ Hev) as [team Hteam].
  destruct (getProp_total data "evaluation" "evaluator" _ Hev) as [usn Husn].
  unfold bind at 1. unfold submitEvaluation.
  unfold bind at 1. unfold lift at 1. rewrite Hteam.
  unfold bind at 1. unfold lift at 1. rewrite Husn.
  unfold bind at 1. unfold lift at 1. rewrite Hev.
  reflexivity.
Qed.

End Dispatcher.

(** ** Grouping by team *)

Lemma lookup_In_keys (k : string) (ps : list (string * JVal)) :
  hasKey k ps = true <-> In k (map fst ps).
Proof.
  unfold hasKey. induction ps as [|[k' v'] rest IH]; simpl.
  - split; [discriminate|contradiction].
  - destruct (String.eqb k k') eqn:E.
    + apply String.eqb_eq in E. subst. split; auto.
    + apply String.eqb_neq in E. rewrite IH. split; [auto|].
      intros [H|H]; [congruence|assumption].
Qed.

Lemma keys_assign (k : string) (v : JVal) (ps : list (string * JVal)) :
  map fst (assign k v ps) =
    if hasKey k ps then map fst ps else map fst ps ++ [k].
Proof.
  unfold hasKey. induction ps as [|[k' v'] rest IH]; simpl; [reflexivity|].
  destruct (String.eqb k k') eqn:E; simpl.
  - apply String.eqb_eq in E. now subst.
  - rewrite IH. now destruct (lookup k rest).
Qed.

Lemma NoDup_keys_assign (k : string) (v : JVal) (ps : list (string * JVal)) :
  NoDup (map fst ps) -> NoDup (map fst (assign k v ps)).
Proof.
  intros Hnd. rewrite keys_assign. destruct (hasKey k ps) eqn:E; [assumption|].
  apply NoDup_app; [assumption|repeat constructor; intros []|].
  intros a Ha [<-|[]].
  apply lookup_In_keys in Ha. congruence.
Qed.

Lemma allArrays_assign (k : string) (l : list JVal)
      (ps : list (string * JVal)) :
  allArrays ps -> allArrays (assign k (JArr l) ps).
Proof.
  intros Hall k0 v0. destruct (String.eqb_spec k0 k) as [->|Hne].
  - rewrite lookup_assign_same. intros [= <-]. now exists l.
  - rewrite lookup_assign_other by assumption. apply Hall.
Qed.

(** One step of the reduction on a document with a plain team name: the
    entry goes to the end of the team's array, which is created on first
    use; the other teams are left alone. *)
Lemma groupStep_plain (ps : list (string * JVal)) (e : Evaluation) (s : string) :
  teamName e = Val s ->
  inherited s = false ->
  allArrays ps ->
  exists ps',
    groupStep (JObj ps) e = Ok (JObj ps')
    /\ allArrays ps'
    /\ (NoDup (map fst ps) -> NoDup (map fst ps'))
    /\ lookup s ps' = Some (JArr (arrayAt s ps ++ [feedbackEntry e]))
    /\ (forall t, t <> s -> lookup t ps' = lookup t ps).
Proof.
  intros Hteam Hplain Hall.
  unfold groupStep, arrayAt. rewrite Hteam. cbn [propertyKey getProp].
  destruct (lookup s ps) as [v|] eqn:Hs.
  - destruct (Hall s v Hs) as [l ->]. cbn [truthy negb].
    cbn [getProp]. rewrite Hs. cbn [push setProp].
    eexists. split; [reflexivity|].
    split; [now apply allArrays_assign|].
    split; [apply NoDup_keys_assign|].
    split; [apply lookup_assign_same|].
    intros t Ht. now apply lookup_assign_other.
  - rewrite Hplain. cbn [truthy negb setProp getProp].
    rewrite lookup_assign_same. cbn [push setProp].
    eexists. split; [reflexivity|].
    split; [now apply allArrays_assign, allArrays_assign|].
    split; [intros; now apply NoDup_keys_assign, NoDup_keys_assign|].
    split; [apply lookup_assign_same|].
    intros t Ht. now rewrite !lookup_assign_other.
Qed.

Lemma reduce_plain (ds : list Evaluation) :
  forall ps : list (string * JVal),
    forallb plainTeam ds = true ->
    allArrays ps ->
    NoDup (map fst ps) ->
    exists ps',
      reduce ds (JObj ps) = Ok (JObj ps')
      /\ NoDup (map fst ps')
      /\ forall t,
           lookup t ps' =
             if hasKey t ps || existsb (hasTeam t) ds
             then Some (JArr (arrayAt t ps ++ teamEntries t ds))
             else None.
Proof.
  induction ds as [|e rest IH]; intros ps Hplain Hall Hnd.
  - exists ps. split; [reflexivity|]. split; [assumption|].
    intros t. unfold teamEntries, hasKey, arrayAt. cbn.
    destruct (lookup t ps) as [v|] eqn:Ht; [|reflexivity].
    destruct (Hall t v Ht) as [l ->]. cbn. now rewrite app_nil_r.
  - cbn [forallb] in Hplain. apply andb_true_iff in Hplain as [He Hrest].
    unfold plainTeam in He. destruct (teamName e) as [| |s] eqn:Hteam;
      try discriminate.
    apply negb_true_iff in He.
    destruct (groupStep_plain ps e s Hteam He Hall)
      as (ps1 & Hstep & Hall1 & Hnd1 & Hsame & Hother).
    destruct (IH ps1 Hrest Hall1 (Hnd1 Hnd)) as (ps' & Hred & Hnd' & Hlook).
    exists ps'. cbn [reduce]. rewrite Hstep.
    split; [assumption|]. split; [assumption|].
    intros t. rewrite Hlook. unfold teamEntries, hasKey, arrayAt.
    cbn [existsb filter].
    assert (Hmine : hasTeam t e = String.eqb s t)
      by (unfold hasTeam; now rewrite Hteam).
    rewrite Hmine.
    destruct (String.eqb_spec s t) as [->|Hne].
    + rewrite Hsame. cbn [orb]. rewrite orb_true_r.
      cbn [map]. unfold arrayAt. now rewrite <- app_assoc.
    + rewrite (Hother t) by congruence. cbn [orb]. reflexivity.
Qed.

Lemma hasKey_assign (k k0 : string) (v : JVal) (ps : list (string * JVal)) :
  hasKey k0 (assign k v ps) = true -> k0 = k \/ hasKey k0 ps = true.
Proof.
  destruct (String.eqb_spec k0 k) as [->|Hne]; [now left|].
  unfold hasKey. rewrite lookup_assign_other by assumption. now right.
Qed.

Lemma noInheritedKeys_assign (k : string) (v : JVal)
      (ps : list (string * JVal)) :
  inherited k = false -> noInheritedKeys ps ->
  noInheritedKeys (assign k v ps).
Proof.
  intros Hk Hps k0 H0. destruct (hasKey_assign k k0 v ps H0) as [->|H]; auto.
Qed.

(** One step of the reduction on any document: either the callback throws
    a TypeError, or the key it used is not an inherited one and the
    accumulator still has no inherited key of its own. *)
Lemma groupStep_cases (ps : list (string * JVal)) (e : Evaluation) :
  noInheritedKeys ps ->
  groupStep (JObj ps) e = Throw TypeError
  \/ exists ps',
       groupStep (JObj ps) e = Ok (JObj ps')
       /\ noInheritedKeys ps'
       /\ inherited (propertyKey (teamName e)) = false.
Proof.
  intros Hinv. unfold groupStep.
  set (key := propertyKey (teamName e)). cbn [getProp].
  destruct (lookup key ps) as [v|] eqn:Hk.
  - assert (Hplain : inherited key = false)
      by (apply Hinv; unfold hasKey; now rewrite Hk).
    destruct (truthy v) eqn:Hv; cbn [negb].
    + cbn [getProp]. rewrite Hk.
      destruct v; cbn [push]; auto.
      right. eexists. split; [reflexivity|]. split; [|assumption].
      now apply noInheritedKeys_assign.
    + cbn [setProp getProp]. rewrite lookup_assign_same. cbn [push setProp].
      right. eexists. split; [reflexivity|]. split; [|assumption].
      now apply noInheritedKeys_assign, noInheritedKeys_assign.
  - destruct (inherited key) eqn:Hi; cbn [truthy negb].
    + cbn [getProp]. rewrite Hk, Hi. now left.
    + cbn [setProp getProp]. rewrite lookup_assign_same. cbn [push setProp].
      right. eexists. split; [reflexivity|]. split; [|reflexivity].
      now apply noInheritedKeys_assign, noInheritedKeys_assign.
Qed.

(** A document filed under an inherited name stops the reduction. *)
Lemma reduce_inherited (ds : list Evaluation) (e : Evaluation) (s : string) :
  In e ds -> teamName e = Val s -> inherited s = true ->
  forall ps, noInheritedKeys ps -> reduce ds (JObj ps) = Throw TypeError.
Proof.
  intros Hin Hteam Hs.
  induction ds as [|d rest IH]; intros ps Hinv; [contradiction|].
  cbn [reduce].
  destruct (groupStep_cases ps d Hinv) as [->|(ps' & -> & Hinv' & Hd)];
    [reflexivity|].
  destruct Hin as [->|Hin].
  - rewrite Hteam in Hd. cbn [propertyKey] in Hd. congruence.
  - now apply IH.
Qed.

Section Feedbacks.

Context {store : DocumentStore}.

Lemma feedbacks_reduces (w : World) :
  connects w ->
  faulty w OpFind = false ->
  feedbacks w =
    match reduce (docs w) (JObj []) with
    | Ok groupedFeedbacks =>
        (Ok (mkResponse 200 groupedFeedbacks),
         recordCall (CallFind None) (ensured w))
    | Throw e =>
        (Ok error500,
         logLine (LogFeedbacksError e) (recordCall (CallFind None) (ensured w)))
    end.
Proof.
  intros Hc Hf.
  unfold feedbacks, tryCatch. unfold bind at 1. rewrite (connectDB_ok w Hc).
  unfold bind at 1.
  cbv [Evaluation_findAll await bind modify reads]. cbn.
  rewrite ensured_faulty, Hf. cbn. rewrite ensured_docs.
  unfold lift. destruct (reduce (docs w) (JObj [])); reflexivity.
Qed.

(** Where every stored team name is plain, [GET /feedbacks] answers 200
    with an object that has one key per team with a stored document, each
    holding the team's entries in insertion order. *)
Lemma feedbacks_groups_plain_teams (w : World) :
  connects w ->
  faulty w OpFind = false ->
  forallb plainTeam (docs w) = true ->
  exists groups w',
    feedbacks w = (Ok (mkResponse 200 (JObj groups)), w')
    /\ NoDup (map fst groups)
    /\ forall t,
         lookup t groups =
           if existsb (hasTeam t) (docs w)
           then Some (JArr (teamEntries t (docs w)))
           else None.
Proof.
  intros Hc Hf Hplain.
  destruct (reduce_plain (docs w) [] Hplain) as (groups & Hred & Hnd & Hlook).
  { intros k v H. discriminate. }
  { constructor. }
  exists groups. eexists.
  rewrite (feedbacks_reduces w Hc Hf), Hred.
  split; [reflexivity|]. split; [assumption|].
  intros t. now rewrite Hlook.
Qed.

(** C6 (as the code runs).  Once a document is stored under a team name
    that every object inherits from [Object.prototype] (["constructor"],
    ["toString"], ...), [GET /feedbacks] no longer answers with the
    grouping: the reduction throws a TypeError at that document and the
    answer is 500, with the store connected and the query itself
    succeeding. *)
Theorem feedbacks_inherited_team_name
        (w : World) (e : Evaluation) (s : string) :
  connects w ->
  faulty w OpFind = false ->
  In e (docs w) ->
  teamName e = Val s ->
  inherited s = true ->
  exists w',
    feedbacks w = (Ok error500, w')
    /\ console w' = console (ensured w) ++ [LogFeedbacksError TypeError].
Proof.
  intros Hc Hf Hin Hteam Hs.
  rewrite (feedbacks_reduces w Hc Hf).
  rewrite (reduce_inherited (docs w) e s Hin Hteam Hs []).
  - eexists. split; reflexivity.
  - intros k H. discriminate.
Qed.

End Feedbacks.

(** ** The statements at concrete requests *)


Lemma relay_event_broadcast_once_witness :
  exists w',
    upload (JObj [("event", JStr "timeSync"); ("data", JNum 42)]) worldCold
      = (Ok ok200, w')
    /\ delivered w' =
         delivered worldCold ++ [mkBroadcast "presentation" "timeSync" (JNum 42)]
    /\ docs w' = docs worldCold
    /\ calls w' =
         calls worldCold ++ connectCalls worldCold
         ++ [CallTrigger "presentation" "timeSync" (JNum 42)].
Proof.
  apply (relay_event_broadcast_once worldCold
           (JObj [("event", JStr "timeSync"); ("data", JNum 42)])
           (JNum 42) JUndefined "timeSync").
  - right. reflexivity.
  - reflexivity.
  - reflexivity.
  - reflexivity.
  - reflexivity.
  - reflexivity.
  - cbn. tauto.
Defined.

(** C3 as stated fails: from the disconnected state, a request with an
    unknown event name is answered 400 only after [connectDB] has issued a
    connect call to the store. *)
Lemma unknown_event_connects_first :
  ~ (forall (w : World) (reqBody event data type : JVal),
        getProp reqBody "event" = Ok event ->
        getProp reqBody "data" = Ok data ->
        getProp reqBody "type" = Ok type ->
        bulkType type = false ->
        (forall name, event = JStr name -> ~ In name eventNames) ->
        exists w',
          upload reqBody w =
            (Ok (mkResponse 400 (message "Invalid event type")), w')
          /\ delivered w' = delivered w
          /\ calls w' = calls w).
Proof.
  intros H.
  destruct (H worldCold
              (JObj [("event", JStr "applause"); ("data", JNum 3)])
              (JStr "applause") (JNum 3) JUndefined
              eq_refl eq_refl eq_refl eq_refl)
    as (w' & Hrun & _ & Hcalls).
  - intros name [= <-]. cbn. intuition discriminate.
  - vm_compute in Hrun. inversion Hrun; subst w'. discriminate Hcalls.
Qed.

Lemma unknown_event_rejected_witness :
  exists w',
    upload (JObj [("event", JStr "applause"); ("data", JNum 3)]) worldCold =
      (Ok (mkResponse 400 (message "Invalid event type")), w')
    /\ delivered w' = delivered worldCold
    /\ docs w' = docs worldCold
    /\ calls w' = calls worldCold ++ connectCalls worldCold.
Proof.
  apply (unknown_event_rejected worldCold
           (JObj [("event", JStr "applause"); ("data", JNum 3)])
           (JStr "applause") (JNum 3) JUndefined).
  - right. reflexivity.
  - reflexivity.
  - reflexivity.
  - reflexivity.
  - reflexivity.
  - intros name Hn. inversion Hn; subst. cbn.
    intuition discriminate.
Defined.

Lemma bulk_upload_acknowledged_witness :
  exists w',
    upload (JObj [("type", JStr "teams");
                  ("event", JStr "evaluationSubmitted");
                  ("data", JArr [JStr "red"; JStr "blue"; JStr "green"])])
           world0 =
      (Ok (mkResponse 200
             (JObj [("message", JStr "Successfully processed teams upload");
                    ("count", JNum 3)])), w')
    /\ docs w' = docs world0
    /\ delivered w' = delivered world0
    /\ calls w' = calls world0 ++ connectCalls world0.
Proof.
  apply (bulk_upload_acknowledged world0
           (JObj [("type", JStr "teams");
                  ("event", JStr "evaluationSubmitted");
                  ("data", JArr [JStr "red"; JStr "blue"; JStr "green"])])
           "teams" [JStr "red"; JStr "blue"; JStr "green"]).
  - left. cbn. discriminate.
  - reflexivity.
  - right. reflexivity.
  - reflexivity.
Defined.

Lemma stored_document_survives_failure_witness :
  exists w',
    upload (submit "T1") worldBrokerDown = (Ok error500, w')
    /\ docs w' =
         docs worldBrokerDown
         ++ [stored worldBrokerDown "T1" "U1"
                    (keepMixed (JObj [("clarity", JNum 5)]))
                    "well paced"].
Proof.
  apply (stored_document_survives_failure worldBrokerDown (submit "T1")
           JUndefined
           [("team", JStr "T1"); ("evaluator", JStr "U1");
            ("evaluation",
             JObj [("ratings", JObj [("clarity", JNum 5)]);
                   ("feedback", JStr "well paced")])]).
  - left. cbn. discriminate.
  - reflexivity.
  - left. reflexivity.
  - reflexivity.
  - reflexivity.
  - reflexivity.
  - reflexivity.
  - split; [reflexivity|]. split; [reflexivity|].
    exists [("ratings", JObj [("clarity", JNum 5)]);
            ("feedback", JStr "well paced")].
    repeat split; reflexivity.
Defined.

(** C9 as stated fails: with a bulk [type] in the body, the request is
    acknowledged with 200 although its event is [evaluationSubmitted] and
    its [data] has no [evaluation]. *)
Lemma submission_without_evaluation_bulk_type :
  ~ (forall (w : World) (reqBody data : JVal),
        getProp reqBody "event" = Ok (JStr "evaluationSubmitted") ->
        getProp reqBody "data" = Ok data ->
        getProp data "evaluation" = Ok JUndefined ->
        exists w',
          upload reqBody w = (Ok error500, w') /\ docs w' = docs w).
Proof.
  intros H.
  destruct (H world0
              (JObj [("type", JStr "teams");
                     ("event", JStr "evaluationSubmitted");
                     ("data", JObj [("team", JStr "T1")])])
              (JObj [("team", JStr "T1")])
              eq_refl eq_refl eq_refl)
    as (w' & Hrun & _).
  vm_compute in Hrun. discriminate Hrun.
Qed.

Lemma submission_without_evaluation_witness :
  exists w',
    upload (JObj [("event", JStr "evaluationSubmitted");
                  ("data", JObj [("team", JStr "T1")])]) world0
      = (Ok error500, w')
    /\ docs w' = docs world0
    /\ delivered w' = delivered world0
    /\ calls w' = calls world0 ++ connectCalls world0
    /\ (connects world0 ->
        console w' = console (ensured world0) ++ [LogEventError TypeError]).
Proof.
  apply (submission_without_evaluation world0
           (JObj [("event", JStr "evaluationSubmitted");
                  ("data", JObj [("team", JStr "T1")])])
           (JObj [("team", JStr "T1")]) JUndefined).
  - reflexivity.
  - reflexivity.
  - reflexivity.
  - reflexivity.
  - reflexivity.
Defined.

Lemma bulk_upload_without_data_witness :
  exists w',
    upload (JObj [("type", JStr "participants")]) world0 = (Ok error500, w')
    /\ docs w' = docs world0
    /\ delivered w' = delivered world0
    /\ calls w' = calls world0 ++ connectCalls world0
    /\ (connects world0 ->
        console w' = console (ensured world0) ++ [LogEventError TypeError]).
Proof.
  apply (bulk_upload_without_data world0
           (JObj [("type", JStr "participants")]) "participants").
  - reflexivity.
  - left. reflexivity.
  - reflexivity.
Defined.

(** The failing request of C6: a submission for the team ["constructor"]
    is stored like any other, and from then on [GET /feedbacks] answers
    500. *)
Lemma feedbacks_inherited_team_name_witness :
  let w1 := snd (upload (submit "constructor") world0) in
  exists w',
    feedbacks w1 = (Ok error500, w')
    /\ console w' = console (ensured w1) ++ [LogFeedbacksError TypeError].
Proof.
  apply (feedbacks_inherited_team_name
           (snd (upload (submit "constructor") world0))
           (mkEvaluation 100 (Val "constructor") (Val "U1")
              (JObj [("clarity", JNum 5)]) (Val "well paced") 1700000000000)
           "constructor").
  - left. cbn. discriminate.
  - reflexivity.
  - left. reflexivity.
  - reflexivity.
  - reflexivity.
Defined.

Lemma feedbacks_groups_plain_teams_example :
  let w2 := snd (upload (submit "T2") (snd (upload (submit "T1") world0))) in
  exists groups w',
    feedbacks w2 = (Ok (mkResponse 200 (JObj groups)), w')
    /\ NoDup (map fst groups)
    /\ forall t,
         lookup t groups =
           if existsb (hasTeam t) (docs w2)
           then Some (JArr (teamEntries t (docs w2)))
           else None.
Proof.
  apply (feedbacks_groups_plain_teams
           (snd (upload (submit "T2") (snd (upload (submit "T1") world0))))).
  - left. cbn. discriminate.
  - reflexivity.
  - reflexivity.
Defined.

(** * Further properties of the handlers *)

(** ** What a computation can change *)

Section Tracking.

Context {B : Type} (proj : World -> B).

Lemma tracks_ret {A} (P : B -> B -> Prop) (a : A) :
  (forall x, P x x) -> tracks proj P (ret a).
Proof. intros HP w r w' [= <- <-]. apply HP. Qed.

Lemma tracks_throw {A} (P : B -> B -> Prop) (e : Err) :
  (forall x, P x x) -> tracks proj P (@throw A e).
Proof. intros HP w r w' [= <- <-]. apply HP. Qed.

Lemma tracks_lift {A} (P : B -> B -> Prop) (r0 : Result A) :
  (forall x, P x x) -> tracks proj P (lift r0).
Proof. intros HP w r w' [= <- <-]. apply HP. Qed.

Lemma tracks_reads {A} (P : B -> B -> Prop) (f : World -> A) :
  (forall x, P x x) -> tracks proj P (reads f).
Proof. intros HP w r w' [= <- <-]. apply HP. Qed.

Lemma tracks_modify (P : B -> B -> Prop) (f : World -> World) :
  (forall w, P (proj w) (proj (f w))) -> tracks proj P (modify f).
Proof. intros HP w r w' [= <- <-]. apply HP. Qed.

(** Sequencing: what the first part and the second part do, composed;
    when the first part throws, the second does not run. *)
Lemma tracks_bind {A C} (P1 P2 P3 : B -> B -> Prop) (m : M A) (k : A -> M C) :
  tracks proj P1 m ->
  (forall a, tracks proj P2 (k a)) ->
  (forall x y, P1 x y -> P3 x y) ->
  (forall x y z, P1 x y -> P2 y z -> P3 x z) ->
  tracks proj P3 (bind m k).
Proof.
  intros Hm Hk Hsub Hcomp w r w'. unfold bind.
  destruct (m w) as [[a|e] w1] eqn:E; intros H.
  - eapply Hcomp; [eapply Hm; eassumption|eapply Hk; eassumption].
  - inversion H; subst. eapply Hsub, Hm. eassumption.
Qed.

Lemma tracks_tryCatch {A} (P1 P2 P3 : B -> B -> Prop)
      (m : M A) (h : Err -> M A) :
  tracks proj P1 m ->
  (forall e, tracks proj P2 (h e)) ->
  (forall x y, P1 x y -> P3 x y) ->
  (forall x y z, P1 x y -> P2 y z -> P3 x z) ->
  tracks proj P3 (tryCatch m h).
Proof.
  intros Hm Hh Hsub Hcomp w r w'. unfold tryCatch.
  destruct (m w) as [[a|e] w1] eqn:E; intros H.
  - inversion H; subst. eapply Hsub, Hm. eassumption.
  - eapply Hcomp; [eapply Hm; eassumption|eapply Hh; eassumption].
Qed.

(** The special cases used most: one side leaves [proj] alone. *)
Lemma tracks_bind_l {A C} (P : B -> B -> Prop) (m : M A) (k : A -> M C) :
  tracks proj eq m -> (forall a, tracks proj P (k a)) ->
  (forall x, P x x) -> tracks proj P (bind m k).
Proof.
  intros Hm Hk HP. apply (tracks_bind eq P P); auto.
  - intros x y ->. apply HP.
  - intros x y z ->. auto.
Qed.

Lemma tracks_bind_r {A C} (P : B -> B -> Prop) (m : M A) (k : A -> M C) :
  tracks proj P m -> (forall a, tracks proj eq (k a)) ->
  tracks proj P (bind m k).
Proof.
  intros Hm Hk. apply (tracks_bind P eq P); auto.
  intros x y z H <-. exact H.
Qed.

Lemma tracks_tryCatch_r {A} (P : B -> B -> Prop) (m : M A) (h : Err -> M A) :
  tracks proj P m -> (forall e, tracks proj eq (h e)) ->
  tracks proj P (tryCatch m h).
Proof.
  intros Hm Hh. apply (tracks_tryCatch P eq P); auto.
  intros x y z H <-. exact H.
Qed.

(** A property read keeps its result in view. *)
Lemma tracks_bind_lift {A C} (P : B -> B -> Prop) (r0 : Result A)
      (k : A -> M C) :
  (forall a, r0 = Ok a -> tracks proj P (k a)) ->
  (forall x, P x x) -> tracks proj P (bind (lift r0) k).
Proof.
  intros Hk HP w r w'. unfold bind, lift.
  destruct r0 as [a|e]; intros H.
  - eapply Hk; [reflexivity|eassumption].
  - inversion H; subst. apply HP.
Qed.

Lemma tracks_weaken {A} (P Q : B -> B -> Prop) (m : M A) :
  tracks proj P m -> (forall x y, P x y -> Q x y) -> tracks proj Q m.
Proof. intros Hm HPQ w r w' H. apply HPQ. eapply Hm. eassumption. Qed.

End Tracking.

Lemma yields_ret {A} (Q : A -> Prop) (a : A) : Q a -> yields Q (ret a).
Proof. intros H w a' w' [= <- <-]. exact H. Qed.

Lemma yields_throw {A} (Q : A -> Prop) (e : Err) : yields Q (throw e).
Proof. intros w a w' H. discriminate H. Qed.

Lemma yields_bind {A C} (Q : C -> Prop) (m : M A) (k : A -> M C) :
  (forall a, yields Q (k a)) -> yields Q (bind m k).
Proof.
  intros Hk w c w'. unfold bind. destruct (m w) as [[a|e] w1]; intros H.
  - eapply Hk. eassumption.
  - discriminate H.
Qed.

Lemma grownBy_refl {X} (n : nat) (Q : X -> Prop) (x : list X) :
  grownBy n Q x x.
Proof.
  exists []. rewrite app_nil_r. repeat split; [apply Nat.le_0_l|constructor].
Qed.

Lemma grownBy_trans {X} (n m : nat) (Q : X -> Prop) (x y z : list X) :
  grownBy n Q x y -> grownBy m Q y z -> grownBy (n + m) Q x z.
Proof.
  intros (l1 & -> & H1 & F1) (l2 & -> & H2 & F2).
  exists (l1 ++ l2). rewrite app_assoc. split; [reflexivity|].
  split; [rewrite length_app; now apply Nat.add_le_mono|].
  apply Forall_app. now split.
Qed.

Lemma grownBy_mono {X} (n m : nat) (Q : X -> Prop) (x y : list X) :
  (n <= m)%nat -> grownBy n Q x y -> grownBy m Q x y.
Proof.
  intros Hle (l & -> & H & F). exists l. repeat split; auto.
  now apply Nat.le_trans with n.
Qed.

Lemma grownBy_one {X} (Q : X -> Prop) (x : list X) (d : X) :
  Q d -> grownBy 1 Q x (x ++ [d]).
Proof.
  intros H. exists [d]. repeat split; [apply Nat.le_refl|].
  now constructor.
Qed.

Ltac same_rel := intro; first [reflexivity | apply grownBy_refl].

(** Discharges [tracks proj eq m] for a computation built from the basic
    operations whose state changes leave [proj] alone. *)
Ltac track_same :=
  repeat first
    [ apply tracks_ret; same_rel
    | apply tracks_throw; same_rel
    | apply tracks_lift; same_rel
    | apply tracks_reads; same_rel
    | apply tracks_modify; intro; reflexivity
    | apply tracks_bind_l; [ | intro | same_rel ]
    | apply tracks_tryCatch_r; [ | intro ]
    | match goal with
      | |- tracks _ _ (if ?b then _ else _) => destruct b
      | |- tracks _ _ (match ?x with _ => _ end) => destruct x
      end ].

Lemma await_docs (c : Call) (op : Op) (e : Err) : tracks docs eq (await c op e).
Proof. unfold await. track_same. Qed.

Lemma await_delivered (c : Call) (op : Op) (e : Err) :
  tracks delivered eq (await c op e).
Proof. unfold await. track_same. Qed.

Lemma connectDB_docs : tracks docs eq connectDB.
Proof. unfold connectDB, mongoose_connect, await. track_same. Qed.

Lemma connectDB_delivered : tracks delivered eq connectDB.
Proof. unfold connectDB, mongoose_connect, await. track_same. Qed.

Section Footprint.

Context {store : DocumentStore}.

Lemma create_docs (team evaluator rates comment : JVal) (at_ : Z) :
  tracks docs (grownBy 1 anyItem)
         (Evaluation_create team evaluator rates comment at_).
Proof.
  unfold Evaluation_create.
  apply tracks_bind_l; [apply await_docs| |same_rel].
  intros _.
  destruct (castString team); [|apply tracks_throw; same_rel].
  destruct (castString evaluator); [|apply tracks_throw; same_rel].
  destruct (castString comment); [|apply tracks_throw; same_rel].
  apply tracks_bind_l; [track_same| |same_rel]. intros id.
  apply tracks_bind_r; [|intro; track_same].
  apply tracks_modify. intros w. cbn. now apply grownBy_one.
Qed.

Lemma create_delivered (team evaluator rates comment : JVal) (at_ : Z) :
  tracks delivered eq (Evaluation_create team evaluator rates comment at_).
Proof. unfold Evaluation_create, await. track_same. Qed.

Lemma find_docs (team : JVal) : tracks docs eq (Evaluation_find team).
Proof. unfold Evaluation_find, await. track_same. Qed.

Lemma find_delivered (team : JVal) : tracks delivered eq (Evaluation_find team).
Proof. unfold Evaluation_find, await. track_same. Qed.

Lemma trigger_docs (ch ev : string) (data : JVal) :
  tracks docs eq (pusher_trigger ch ev data).
Proof. unfold pusher_trigger, await. track_same. Qed.

Lemma trigger_delivered (ev : string) (data : JVal) :
  tracks delivered (grownBy 1 onPresentation)
         (pusher_trigger "presentation" ev data).
Proof.
  unfold pusher_trigger.
  apply tracks_bind_l; [apply await_delivered| |same_rel]. intros _.
  apply tracks_modify. intros w. cbn. now apply grownBy_one.
Qed.

Lemma submitEvaluation_docs (data : JVal) :
  tracks docs (grownBy 1 anyItem) (submitEvaluation data).
Proof.
  unfold submitEvaluation.
  do 7 (apply tracks_bind_l; [track_same| intro |same_rel]).
  apply tracks_bind_r; [apply create_docs|]. intros evaluation.
  apply tracks_bind_l; [apply trigger_docs| intro |same_rel].
  apply tracks_bind_l; [track_same| intro |same_rel].
  apply tracks_bind_l; [apply find_docs| intro |same_rel].
  apply tracks_bind_l; [track_same| intro |same_rel].
  apply trigger_docs.
Qed.

Lemma submitEvaluation_delivered (data : JVal) :
  tracks delivered (grownBy 2 onPresentation) (submitEvaluation data).
Proof.
  unfold submitEvaluation.
  do 7 (apply tracks_bind_l; [track_same| intro |same_rel]).
  apply tracks_bind_l; [apply create_delivered| intro |same_rel].
  apply (tracks_bind delivered (grownBy 1 onPresentation)
           (grownBy 1 onPresentation) (grownBy 2 onPresentation)).
  - apply trigger_delivered.
  - intros _.
    apply tracks_bind_l; [track_same| intro |same_rel].
    apply tracks_bind_l; [apply find_delivered| intro |same_rel].
    apply tracks_bind_l; [track_same| intro |same_rel].
    apply trigger_delivered.
  - intros x y. apply grownBy_mono. auto.
  - intros x y z. apply (grownBy_trans 1 1).
Qed.

(** The [try] block of [upload], with the event name it read in view:
    whatever holds of the relay arm, the submission arm and the arms that
    only answer holds of the block. *)
Lemma uploadTry_tracks {B} (proj : World -> B) (P : B -> B -> Prop)
      (reqBody : JVal) :
  (forall x, P x x) ->
  tracks proj eq connectDB ->
  (forall name data,
      getProp reqBody "event" = Ok (JStr name) ->
      In name relayEvents ->
      tracks proj P (pusher_trigger "presentation" name data)) ->
  (forall data,
      getProp reqBody "event" = Ok (JStr "evaluationSubmitted") ->
      tracks proj P (submitEvaluation data)) ->
  tracks proj P (uploadTry reqBody).
Proof.
  intros HP Hconn Hrelay Hsubmit. unfold uploadTry.
  apply tracks_bind_l; [exact Hconn| intros _ |exact HP].
  apply tracks_bind_lift; [intros event He|exact HP].
  apply tracks_bind_lift; [intros data Hd|exact HP].
  apply tracks_bind_lift; [intros type Ht|exact HP].
  destruct (bulkType type).
  { apply tracks_bind_lift; [intros count _|exact HP].
    now apply tracks_ret. }
  destruct event as [| | | |name| | | | |]; try now apply tracks_ret.
  destruct (existsb (String.eqb name) relayEvents) eqn:Er.
  { apply tracks_bind_r; [|intro; apply tracks_ret; reflexivity].
    apply Hrelay; [assumption|]. now apply existsb_eqb_In. }
  destruct (String.eqb name "evaluationSubmitted") eqn:Es;
    [|now apply tracks_ret].
  apply String.eqb_eq in Es. subst name.
  apply tracks_bind_r; [|intro; apply tracks_ret; reflexivity].
  now apply Hsubmit.
Qed.

Lemma upload_tracks {B} (proj : World -> B) (P : B -> B -> Prop)
      (reqBody : JVal) :
  (forall w l, proj (logLine l w) = proj w) ->
  tracks proj P (uploadTry reqBody) ->
  tracks proj P (upload reqBody).
Proof.
  intros Hlog Htry. unfold upload.
  apply tracks_tryCatch_r; [exact Htry|]. intros e.
  apply tracks_bind_l; [|intro; apply tracks_ret; reflexivity|reflexivity].
  apply tracks_modify. intros w. now rewrite Hlog.
Qed.

(** X1.  [POST /api/upload] only ever appends to the collection: whatever
    the body and whatever fails, the documents stored before the request
    are all still there afterwards, unchanged and in the same order,
    followed by at most one new document. *)
Theorem upload_append_only (reqBody : JVal) (w : World) :
  exists added,
    docs (snd (upload reqBody w)) = docs w ++ added
    /\ (List.length added <= 1)%nat.
Proof.
  assert (H : tracks docs (grownBy 1 anyItem) (upload reqBody)).
  { apply upload_tracks; [reflexivity|].
    apply uploadTry_tracks.
    - intro. apply grownBy_refl.
    - apply connectDB_docs.
    - intros name data _ _.
      apply tracks_weaken with (P := eq); [apply trigger_docs|].
      intros x y ->. apply grownBy_refl.
    - intros data _. apply submitEvaluation_docs. }
  destruct (H w (fst (upload reqBody w)) (snd (upload reqBody w)))
    as (added & Hdocs & Hlen & _); [now destruct (upload reqBody w)|].
  now exists added.
Qed.

(** X2.  One request to [POST /api/upload] publishes at most two events,
    and never on a channel other than [presentation]; events delivered
    earlier are left as they were. *)
Theorem upload_broadcasts_bounded (reqBody : JVal) (w : World) :
  exists sent,
    delivered (snd (upload reqBody w)) = delivered w ++ sent
    /\ (List.length sent <= 2)%nat
    /\ Forall (fun b => channel b = "presentation") sent.
Proof.
  assert (H : tracks delivered (grownBy 2 onPresentation) (upload reqBody)).
  { apply upload_tracks; [reflexivity|].
    apply uploadTry_tracks.
    - intro. apply grownBy_refl.
    - apply connectDB_delivered.
    - intros name data _ _.
      apply tracks_weaken with (P := grownBy 1 onPresentation);
        [apply trigger_delivered|].
      intros x y. apply grownBy_mono. auto.
    - intros data _. apply submitEvaluation_delivered. }
  apply (H w (fst (upload reqBody w)) (snd (upload reqBody w))).
  now destruct (upload reqBody w).
Qed.

(** X3.  Only an [evaluationSubmitted] event can add a document: a
    request whose [event] is anything else (a relay event, an unknown
    name, no name at all) leaves the collection exactly as it was, whether
    it succeeds or fails. *)
Theorem only_submissions_store (reqBody : JVal) (w : World) :
  getProp reqBody "event" <> Ok (JStr "evaluationSubmitted") ->
  docs (snd (upload reqBody w)) = docs w.
Proof.
  intros Hev.
  assert (H : tracks docs eq (upload reqBody)).
  { apply upload_tracks; [reflexivity|].
    apply uploadTry_tracks.
    - reflexivity.
    - apply connectDB_docs.
    - intros name data _ _. apply trigger_docs.
    - intros data He. contradiction. }
  symmetry.
  apply (H w (fst (upload reqBody w)) (snd (upload reqBody w))).
  now destruct (upload reqBody w).
Qed.

End Footprint.

(** ** Outcomes of the connection guard and of the dispatcher *)

Lemma ensured_readyState (w : World) : readyState (ensured w) <> 0.
Proof.
  unfold ensured. destruct (readyState w =? 0) eqn:E; cbn.
  - discriminate.
  - now apply Z.eqb_neq.
Qed.

Lemma ensured_console (w : World) :
  console (ensured w) =
    console w ++ (if readyState w =? 0 then [LogConnected] else []).
Proof.
  unfold ensured. destruct (readyState w =? 0); cbn; auto.
  now rewrite app_nil_r.
Qed.

Lemma not_connects (w : World) :
  ~ connects w -> readyState w = 0 /\ faulty w OpConnect = true.
Proof.
  intros Hn. split.
  - destruct (Z.eq_dec (readyState w) 0); [assumption|].
    exfalso. apply Hn. now left.
  - destruct (faulty w OpConnect) eqn:F; [reflexivity|].
    exfalso. apply Hn. now right.
Qed.

(** X4.  [connectDB] returns normally exactly when the connection is
    there already or the connect attempt succeeds, and then the connection
    state is not 0; otherwise it logs the connection error and throws it
    on to its caller. *)
Theorem connectDB_outcome (w : World) :
  (connects w
   /\ fst (connectDB w) = Ok tt
   /\ readyState (snd (connectDB w)) <> 0)
  \/ (~ connects w
      /\ fst (connectDB w) = Throw StoreError
      /\ console (snd (connectDB w)) =
           console w ++ [LogConnectionError StoreError]).
Proof.
  destruct (connects_dec w) as [Hc|Hn].
  - left. rewrite (connectDB_ok w Hc). cbn [fst snd].
    repeat split; [assumption|apply ensured_readyState].
  - right. destruct (not_connects w Hn) as [E F].
    rewrite (connectDB_attempt w E), F. cbn. auto.
Qed.

Section Outcomes.

Context {store : DocumentStore}.

Ltac yield_status :=
  repeat first
    [ apply yields_ret; cbn; tauto
    | apply yields_throw
    | apply yields_bind; intro
    | match goal with
      | |- yields _ (if ?b then _ else _) => destruct b
      | |- yields _ (match ?x with _ => _ end) => destruct x
      end ].

(** X5.  Every request to [POST /api/upload] is answered: nothing thrown
    inside the handler escapes it.  The status is 200, 400 or 500, and a
    500 always carries the generic message. *)
Theorem upload_always_answers (reqBody : JVal) (w : World) :
  exists r,
    fst (upload reqBody w) = Ok r
    /\ (status r = 200 \/ status r = 400 \/ r = error500).
Proof.
  rewrite upload_catch.
  destruct (uploadTry reqBody w) as [[r|e] w1] eqn:E; cbn [fst].
  - exists r. split; [reflexivity|].
    assert (H : yields (fun r => status r = 200 \/ status r = 400)
                       (uploadTry reqBody)).
    { unfold uploadTry. yield_status. }
    destruct (H w r w1 E); auto.
  - exists error500. auto.
Qed.

(** X6.  While the store is disconnected and cannot be reached, every
    request to [POST /api/upload] is answered 500, whatever its body: also
    a bulk upload or a relay event, which use no document.  Nothing is
    stored or published; the one external call is the failed connect. *)
Theorem upload_needs_connection (reqBody : JVal) (w : World) :
  readyState w = 0 ->
  faulty w OpConnect = true ->
  exists w',
    upload reqBody w = (Ok error500, w')
    /\ docs w' = docs w
    /\ delivered w' = delivered w
    /\ calls w' = calls w ++ [CallConnect]
    /\ console w' =
         console w ++ [LogConnectionError StoreError; LogEventError StoreError].
Proof.
  intros E F.
  rewrite upload_guard_throws.
  - eexists. split; [reflexivity|]. cbn. rewrite <- app_assoc. auto.
  - intros [H|H]; congruence.
Qed.

(** X7.  A request without a body ([req.body] undefined or null) is
    answered 500: unpacking [event], [data] and [type] throws.  Nothing is
    stored or published. *)
Theorem upload_without_body (reqBody : JVal) (w : World) :
  nullish reqBody = true ->
  exists w',
    upload reqBody w = (Ok error500, w')
    /\ docs w' = docs w
    /\ delivered w' = delivered w
    /\ calls w' = calls w ++ connectCalls w
    /\ (connects w ->
        console w' = console (ensured w) ++ [LogEventError TypeError]).
Proof.
  intros Hnull. apply upload_throws_early. intros Hc.
  unfold uploadTry. unfold bind at 1. rewrite (connectDB_ok w Hc).
  destruct reqBody; try discriminate; reflexivity.
Qed.

Lemma getProp_defined (v : JVal) (k : string) :
  nullish v = false -> exists x, getProp v k = Ok x.
Proof.
  destruct v; cbn; try discriminate; intros _; try (eexists; reflexivity).
  destruct (lookup k props); eexists; reflexivity.
Qed.

(** X8.  The bulk branch validates nothing: with [type] ['participants']
    or ['teams'], any [data] other than undefined and null is acknowledged
    with 200, and [count] is whatever reading [data.length] gives (the
    length of an array or a string, undefined for an object without that
    key, a number or a boolean); [data] undefined or null is answered
    500. *)
Theorem bulk_upload_unvalidated
        (w : World) (reqBody data : JVal) (kind : string) :
  connects w ->
  getProp reqBody "type" = Ok (JStr kind) ->
  kind = "participants" \/ kind = "teams" ->
  getProp reqBody "data" = Ok data ->
  fst (upload reqBody w) =
    Ok (match getProp data "length" with
        | Ok count =>
            mkResponse 200
              (JObj [("message",
                      JStr ("Successfully processed " ++ kind ++ " upload")%string);
                     ("count", count)])
        | Throw _ => error500
        end)
  /\ (nullish data = false <-> exists count, getProp data "length" = Ok count).
Proof.
  intros Hc Ht Hk Hd.
  destruct (getProp_total reqBody "type" "event" _ Ht) as [event He].
  rewrite upload_catch,
    (uploadTry_reads reqBody event data (JStr kind) w Hc He Hd Ht).
  replace (bulkType (JStr kind)) with true
    by (destruct Hk; subst kind; reflexivity).
  split.
  - unfold bind, lift. destruct (getProp data "length"); reflexivity.
  - split; [apply getProp_defined|].
    intros [count Hcount]. destruct data; try reflexivity; discriminate.
Qed.

Lemma Evaluation_create_fail (team evaluator rates comment : JVal) (at_ : Z)
      (w : World) :
  faulty w OpCreate = true ->
  Evaluation_create team evaluator rates comment at_ w =
    (Throw StoreError,
     recordCall (CallCreate team evaluator rates comment at_) w).
Proof.
  intros H. cbv [Evaluation_create await bind modify reads]. cbn.
  now rewrite H.
Qed.

(** X9.  When the store refuses the create, a well-formed submission is
    answered 500 and has no effect: no document, no broadcast, no query.
    The create is the only call issued past the connection guard. *)
Theorem submission_refused_by_store
        (w : World) (reqBody type : JVal) (props : list (string * JVal))
        (team evaluator : string) (rates : JVal) (comment : string) :
  connects w ->
  faulty w OpCreate = true ->
  getProp reqBody "event" = Ok (JStr "evaluationSubmitted") ->
  getProp reqBody "data" = Ok (JObj props) ->
  getProp reqBody "type" = Ok type ->
  bulkType type = false ->
  submission props team evaluator rates comment ->
  exists w',
    upload reqBody w = (Ok error500, w')
    /\ docs w' = docs w
    /\ delivered w' = delivered w
    /\ calls w' =
         calls w ++ connectCalls w
         ++ [CallCreate (JStr team) (JStr evaluator) rates (JStr comment)
                        (clock w)].
Proof.
  intros Hc Hf He Hd Ht Hb (Hteam & Hevaluator & inner & Hinner & Hrates & Hcomment).
  rewrite upload_catch,
    (uploadTry_reads reqBody _ _ type w Hc He Hd Ht), Hb.
  cbn [existsb relayEvents String.eqb Ascii.eqb Bool.eqb orb].
  unfold bind at 1. unfold submitEvaluation.
  cbv [bind lift getProp reads]. rewrite Hteam, Hevaluator, Hinner.
  rewrite Hrates, Hcomment.
  rewrite Evaluation_create_fail by now rewrite ensured_faulty.
  eexists. split; [reflexivity|]. cbn.
  rewrite ensured_docs, ensured_delivered, ensured_calls, ensured_clock,
    <- app_assoc.
  auto.
Qed.

(** X10.  When the broker refuses the first publish of a submission, the
    document is already stored, no client has been told anything, and the
    handler stops there: the team's documents are not queried and the
    second publish is not attempted.  The answer is 500. *)
Theorem submission_first_publish_refused
        (w : World) (reqBody type : JVal) (props : list (string * JVal))
        (team evaluator : string) (rates : JVal) (comment : string) :
  connects w ->
  faulty w OpCreate = false ->
  faulty w (OpTrigger "evaluationSubmitted") = true ->
  getProp reqBody "event" = Ok (JStr "evaluationSubmitted") ->
  getProp reqBody "data" = Ok (JObj props) ->
  getProp reqBody "type" = Ok type ->
  bulkType type = false ->
  submission props team evaluator rates comment ->
  exists w',
    upload reqBody w = (Ok error500, w')
    /\ docs w' = docs w ++ [stored w team evaluator (keepMixed rates) comment]
    /\ delivered w' = delivered w
    /\ calls w' =
         calls w ++ connectCalls w
         ++ [CallCreate (JStr team) (JStr evaluator) rates (JStr comment)
                        (clock w);
             CallTrigger "presentation" "evaluationSubmitted"
                         (payload (submittedBroadcast w props))].
Proof.
  intros Hc Hcreate Htrig He Hd Ht Hb Hsub.
  rewrite upload_catch,
    (uploadTry_reads reqBody _ _ type w Hc He Hd Ht), Hb.
  cbn [existsb relayEvents String.eqb Ascii.eqb Bool.eqb orb].
  unfold bind at 1.
  rewrite (submitEvaluation_stores (ensured w) props team evaluator rates
             comment Hsub) by now rewrite ensured_faulty.
  unfold bind at 1.
  rewrite pusher_trigger_fail by (cbn; now rewrite ensured_faulty).
  eexists. split; [reflexivity|]. unfold stored, submittedBroadcast. cbn.
  rewrite ensured_docs, ensured_delivered, ensured_calls, ensured_clock,
    ensured_nextId, <- !app_assoc.
  auto.
Qed.

(** X11.  When the first publish of a submission went out and then the
    query or the second publish fails, the clients have received
    [evaluationSubmitted] for a stored document but no [teamEvaluations],
    and the submitter is answered 500. *)
Theorem submission_second_stage_fails
        (w : World) (reqBody type : JVal) (props : list (string * JVal))
        (team evaluator : string) (rates : JVal) (comment : string) :
  connects w ->
  faulty w OpCreate = false ->
  faulty w (OpTrigger "evaluationSubmitted") = false ->
  faulty w OpFind = true \/ faulty w (OpTrigger "teamEvaluations") = true ->
  getProp reqBody "event" = Ok (JStr "evaluationSubmitted") ->
  getProp reqBody "data" = Ok (JObj props) ->
  getProp reqBody "type" = Ok type ->
  bulkType type = false ->
  submission props team evaluator rates comment ->
  exists w',
    upload reqBody w = (Ok error500, w')
    /\ docs w' = docs w ++ [stored w team evaluator (keepMixed rates) comment]
    /\ delivered w' = delivered w ++ [submittedBroadcast w props].
Proof.
  intros Hc Hcreate Htrig Hlater He Hd Ht Hb Hsub.
  rewrite upload_catch,
    (uploadTry_reads reqBody _ _ type w Hc He Hd Ht), Hb.
  cbn [existsb relayEvents String.eqb Ascii.eqb Bool.eqb orb].
  unfold bind at 1.
  rewrite (submitEvaluation_stores (ensured w) props team evaluator rates
             comment Hsub) by now rewrite ensured_faulty.
  unfold bind at 1.
  rewrite pusher_trigger_ok by (cbn; now rewrite ensured_faulty).
  unfold bind at 1.
  assert (Hend : forall w',
             docs w' = docs (ensured w)
                       ++ [stored (ensured w) team evaluator (keepMixed rates) comment] ->
             delivered w' = delivered (ensured w)
                            ++ [submittedBroadcast (ensured w) props] ->
             docs w' = docs w ++ [stored w team evaluator (keepMixed rates) comment]
             /\ delivered w' = delivered w ++ [submittedBroadcast w props]).
  { intros w' -> ->. unfold stored, submittedBroadcast.
    now rewrite ensured_docs, ensured_delivered, ensured_nextId,
      ensured_clock. }
  destruct (faulty w OpFind) eqn:F.
  - rewrite Evaluation_find_fail by (cbn; now rewrite ensured_faulty).
    eexists. split; [reflexivity|]. now apply Hend.
  - rewrite Evaluation_find_ok by (cbn; now rewrite ensured_faulty).
    destruct Hlater as [Hl|Hl]; [discriminate|].
    rewrite pusher_trigger_fail by (cbn; now rewrite ensured_faulty).
    eexists. split; [reflexivity|]. now apply Hend.
Qed.

(** X12.  When the broker refuses a relay event, the request is answered
    500 and no client receives anything; the publish was attempted once
    and is not retried. *)
Theorem relay_event_refused
        (w : World) (reqBody data type : JVal) (name : string) :
  connects w ->
  faulty w (OpTrigger name) = true ->
  getProp reqBody "event" = Ok (JStr name) ->
  getProp reqBody "data" = Ok data ->
  getProp reqBody "type" = Ok type ->
  bulkType type = false ->
  In name relayEvents ->
  exists w',
    upload reqBody w = (Ok error500, w')
    /\ delivered w' = delivered w
    /\ docs w' = docs w
    /\ calls w' =
         calls w ++ connectCalls w ++ [CallTrigger "presentation" name data].
Proof.
  intros Hc Hf He Hd Ht Hb Hin.
  apply existsb_eqb_In in Hin.
  rewrite upload_catch,
    (uploadTry_reads reqBody (JStr name) data type w Hc He Hd Ht), Hb, Hin.
  unfold bind at 1. rewrite pusher_trigger_fail by now rewrite ensured_faulty.
  eexists. split; [reflexivity|]. cbn.
  rewrite ensured_delivered, ensured_docs, ensured_calls, <- app_assoc.
  auto.
Qed.

End Outcomes.

(** ** Reading the collection back *)

(** One step of the reduction on a document whose key is not an inherited
    name, whether the document has a team name or not. *)
Lemma groupStep_keyed (ps : list (string * JVal)) (e : Evaluation) :
  inherited (keyOf e) = false ->
  allArrays ps ->
  exists ps',
    groupStep (JObj ps) e = Ok (JObj ps')
    /\ allArrays ps'
    /\ (NoDup (map fst ps) -> NoDup (map fst ps'))
    /\ lookup (keyOf e) ps' =
         Some (JArr (arrayAt (keyOf e) ps ++ [feedbackEntry e]))
    /\ (forall k, k <> keyOf e -> lookup k ps' = lookup k ps).
Proof.
  intros Hplain Hall.
  unfold groupStep, arrayAt. fold (keyOf e). cbn [getProp].
  destruct (lookup (keyOf e) ps) as [v|] eqn:Hs.
  - destruct (Hall _ v Hs) as [l ->]. cbn [truthy negb].
    cbn [getProp]. rewrite Hs. cbn [push setProp].
    eexists. split; [reflexivity|].
    split; [now apply allArrays_assign|].
    split; [apply NoDup_keys_assign|].
    split; [apply lookup_assign_same|].
    intros k Hk. now apply lookup_assign_other.
  - rewrite Hplain. cbn [truthy negb setProp getProp].
    rewrite lookup_assign_same. cbn [push setProp].
    eexists. split; [reflexivity|].
    split; [now apply allArrays_assign, allArrays_assign|].
    split; [intros; now apply NoDup_keys_assign, NoDup_keys_assign|].
    split; [apply lookup_assign_same|].
    intros k Hk. now rewrite !lookup_assign_other.
Qed.

Lemma reduce_keyed (ds : list Evaluation) :
  forall ps : list (string * JVal),
    groupable ds = true ->
    allArrays ps ->
    NoDup (map fst ps) ->
    exists ps',
      reduce ds (JObj ps) = Ok (JObj ps')
      /\ NoDup (map fst ps')
      /\ forall k,
           lookup k ps' =
             if hasKey k ps || existsb (filedUnder k) ds
             then Some (JArr (arrayAt k ps
                              ++ map feedbackEntry (filter (filedUnder k) ds)))
             else None.
Proof.
  induction ds as [|e rest IH]; intros ps Hplain Hall Hnd.
  - exists ps. split; [reflexivity|]. split; [assumption|].
    intros k. unfold hasKey, arrayAt. cbn.
    destruct (lookup k ps) as [v|] eqn:Hk; [|reflexivity].
    destruct (Hall k v Hk) as [l ->]. cbn. now rewrite app_nil_r.
  - unfold groupable in Hplain. cbn [forallb] in Hplain.
    apply andb_true_iff in Hplain as [He Hrest].
    apply negb_true_iff in He.
    destruct (groupStep_keyed ps e He Hall)
      as (ps1 & Hstep & Hall1 & Hnd1 & Hsame & Hother).
    destruct (IH ps1 Hrest Hall1 (Hnd1 Hnd)) as (ps' & Hred & Hnd' & Hlook).
    exists ps'. cbn [reduce]. rewrite Hstep.
    split; [assumption|]. split; [assumption|].
    intros k. rewrite Hlook. unfold hasKey, arrayAt.
    cbn [existsb filter].
    assert (Hmine : filedUnder k e = String.eqb (keyOf e) k) by reflexivity.
    rewrite Hmine.
    destruct (String.eqb_spec (keyOf e) k) as [Heq|Hne].
    + subst k. rewrite Hsame. cbn [orb]. rewrite orb_true_r.
      cbn [map]. unfold arrayAt. now rewrite <- app_assoc.
    + rewrite (Hother k) by congruence. cbn [orb]. reflexivity.
Qed.

(** A collection that is not groupable holds a document whose team name
    is an inherited property name. *)
Lemma not_groupable (ds : list Evaluation) :
  groupable ds = false ->
  exists e s, In e ds /\ teamName e = Val s /\ inherited s = true.
Proof.
  unfold groupable. induction ds as [|d rest IH]; cbn [forallb];
    [discriminate|].
  intros H. apply andb_false_iff in H as [H|H].
  - apply negb_false_iff in H. unfold keyOf in H.
    destruct (teamName d) as [| |s] eqn:Hd; cbn in H; try discriminate.
    exists d, s. split; [now left|]. now split.
  - destruct (IH H) as (e & s & Hin & He & Hs).
    exists e, s. split; [now right|]. now split.
Qed.

Section ReadingBack.

Context {store : DocumentStore}.

Lemma feedbacks_docs : tracks docs eq feedbacks.
Proof.
  unfold feedbacks. apply tracks_tryCatch_r; [|intro; track_same].
  apply tracks_bind_l; [apply connectDB_docs| intros _ |same_rel].
  unfold Evaluation_findAll, await. track_same.
Qed.

Lemma feedbacks_delivered : tracks delivered eq feedbacks.
Proof.
  unfold feedbacks. apply tracks_tryCatch_r; [|intro; track_same].
  apply tracks_bind_l; [apply connectDB_delivered| intros _ |same_rel].
  unfold Evaluation_findAll, await. track_same.
Qed.

(** X13.  [GET /feedbacks] only reads: whatever the state of the store
    and of the collection, it stores nothing, removes nothing and
    publishes nothing, and it always answers, with 200 or with the
    generic 500. *)
Theorem feedbacks_read_only (w : World) :
  docs (snd (feedbacks w)) = docs w
  /\ delivered (snd (feedbacks w)) = delivered w
  /\ exists r,
       fst (feedbacks w) = Ok r /\ (status r = 200 \/ r = error500).
Proof.
  split; [|split].
  - symmetry. apply (feedbacks_docs w (fst (feedbacks w)) (snd (feedbacks w))).
    now destruct (feedbacks w).
  - symmetry.
    apply (feedbacks_delivered w (fst (feedbacks w)) (snd (feedbacks w))).
    now destruct (feedbacks w).
  - unfold feedbacks, tryCatch.
    match goal with
    | |- context [match ?m w with _ => _ end] =>
        destruct (m w) as [[r|e] w1] eqn:E
    end.
    + exists r. split; [reflexivity|]. left.
      revert E. unfold bind at 1. destruct (connectDB w) as [[[]|e] w0];
        [|discriminate].
      unfold bind at 1.
      destruct (Evaluation_findAll w0) as [[ds|e] w2]; [|discriminate].
      unfold bind, lift. destruct (reduce ds (JObj [])); [|discriminate].
      now intros [= <- _].
    + exists error500. split; [reflexivity|]. now right.
Qed.

(** X14.  When the query for the documents fails, [GET /feedbacks]
    answers 500, not an empty grouping; the error is logged and the query
    is not retried. *)
Theorem feedbacks_query_fails (w : World) :
  connects w ->
  faulty w OpFind = true ->
  exists w',
    feedbacks w = (Ok error500, w')
    /\ calls w' = calls w ++ connectCalls w ++ [CallFind None]
    /\ console w' = console (ensured w) ++ [LogFeedbacksError StoreError].
Proof.
  intros Hc Hf.
  unfold feedbacks, tryCatch. unfold bind at 1. rewrite (connectDB_ok w Hc).
  unfold bind at 1.
  cbv [Evaluation_findAll await bind modify reads]. cbn.
  rewrite ensured_faulty, Hf. cbn.
  eexists. split; [reflexivity|]. cbn.
  rewrite ensured_calls, <- app_assoc. auto.
Qed.

(** X15.  With the store answering and no document filed under an
    inherited name, [GET /feedbacks] answers 200 with one key per property
    key in use, each holding the entries of the documents filed under it,
    oldest first.  A document is filed under its team name; a document
    without one is filed under ["undefined"] (["null"] for a null one), in
    the same array as the documents of a team of that very name. *)
Theorem feedbacks_groups_by_key (w : World) :
  connects w ->
  faulty w OpFind = false ->
  groupable (docs w) = true ->
  exists groups w',
    feedbacks w = (Ok (mkResponse 200 (JObj groups)), w')
    /\ NoDup (map fst groups)
    /\ forall k,
         lookup k groups =
           if existsb (filedUnder k) (docs w)
           then Some (JArr (map feedbackEntry (filter (filedUnder k) (docs w))))
           else None.
Proof.
  intros Hc Hf Hg.
  destruct (reduce_keyed (docs w) [] Hg) as (groups & Hred & Hnd & Hlook).
  { intros k v H. discriminate. }
  { constructor. }
  exists groups. eexists.
  rewrite (feedbacks_reduces w Hc Hf), Hred.
  split; [reflexivity|]. split; [assumption|].
  intros k. now rewrite Hlook.
Qed.

(** X16.  With the store answering, [GET /feedbacks] answers 200 exactly
    when no stored document is filed under a name that objects inherit;
    one such document is enough to turn every answer into a 500. *)
Theorem feedbacks_ok_iff_groupable (w : World) :
  connects w ->
  faulty w OpFind = false ->
  (exists r, fst (feedbacks w) = Ok r /\ status r = 200)
  <-> groupable (docs w) = true.
Proof.
  intros Hc Hf. split.
  - intros (r & Hr & Hstatus).
    destruct (groupable (docs w)) eqn:Hg; [reflexivity|exfalso].
    destruct (not_groupable (docs w) Hg) as (e & s & Hin & He & Hs).
    rewrite (feedbacks_reduces w Hc Hf) in Hr.
    rewrite (reduce_inherited (docs w) e s Hin He Hs []) in Hr
      by (intros k H; discriminate).
    cbn in Hr. inversion Hr; subst r. discriminate Hstatus.
  - intros Hg.
    destruct (reduce_keyed (docs w) [] Hg) as (groups & Hred & _).
    { intros k v H. discriminate. }
    { constructor. }
    rewrite (feedbacks_reduces w Hc Hf), Hred.
    eexists. split; reflexivity.
Qed.

End ReadingBack.

(** ** Submitting, then reading back *)

Section RoundTrip.

Context {store : DocumentStore}.

(** The run of a well-formed submission when every call succeeds. *)
Lemma upload_submission_run
      (w : World) (reqBody type : JVal) (props : list (string * JVal))
      (team evaluator : string) (rates : JVal) (comment : string) :
  connects w ->
  faulty w OpCreate = false ->
  faulty w (OpTrigger "evaluationSubmitted") = false ->
  faulty w OpFind = false ->
  faulty w (OpTrigger "teamEvaluations") = false ->
  getProp reqBody "event" = Ok (JStr "evaluationSubmitted") ->
  getProp reqBody "data" = Ok (JObj props) ->
  getProp reqBody "type" = Ok type ->
  bulkType type = false ->
  submission props team evaluator rates comment ->
  upload reqBody w =
    (Ok ok200,
     afterSubmission w props team evaluator rates (keepMixed rates) comment).
Proof.
  intros Hc Hcreate Htrig1 Hfind Htrig2 He Hd Ht Hb Hsub.
  rewrite upload_catch,
    (uploadTry_reads reqBody _ _ type w Hc He Hd Ht), Hb.
  cbn [existsb relayEvents String.eqb Ascii.eqb Bool.eqb orb].
  unfold bind at 1.
  rewrite (submitEvaluation_stores (ensured w) props team evaluator rates
             comment Hsub) by now rewrite ensured_faulty.
  unfold bind at 1. rewrite pusher_trigger_ok by (cbn; now rewrite ensured_faulty).
  unfold bind at 1. rewrite Evaluation_find_ok by (cbn; now rewrite ensured_faulty).
  rewrite pusher_trigger_ok by (cbn; now rewrite ensured_faulty).
  reflexivity.
Qed.

Lemma afterSubmission_docs
      (w : World) (props : list (string * JVal)) (team evaluator : string)
      (rates kept : JVal) (comment : string) :
  docs (afterSubmission w props team evaluator rates kept comment) =
    docs w ++ [stored w team evaluator kept comment].
Proof.
  unfold afterSubmission, stored. cbn.
  now rewrite ensured_docs, ensured_nextId, ensured_clock.
Qed.

Lemma afterSubmission_delivered
      (w : World) (props : list (string * JVal)) (team evaluator : string)
      (rates kept : JVal) (comment : string) :
  delivered (afterSubmission w props team evaluator rates kept comment) =
    delivered w
    ++ [submittedBroadcast w props;
        teamBroadcast team
          (filter (hasTeam team)
                  (docs w ++ [stored w team evaluator kept comment]))].
Proof.
  unfold afterSubmission, stored, submittedBroadcast. cbn.
  now rewrite ensured_docs, ensured_delivered, ensured_nextId, ensured_clock,
    <- app_assoc.
Qed.


(** X18.  The [evaluationSubmitted] broadcast of a successful submission
    carries every property of the submitted [data] as it came, except
    [evaluationId], which is the id of the document just stored, also when
    the client sent an [evaluationId] of its own. *)
Theorem submitted_broadcast_carries_stored_id
        (w : World) (reqBody type : JVal) (props : list (string * JVal))
        (team evaluator : string) (rates : JVal) (comment : string) :
  connects w ->
  faulty w OpCreate = false ->
  faulty w (OpTrigger "evaluationSubmitted") = false ->
  faulty w OpFind = false ->
  faulty w (OpTrigger "teamEvaluations") = false ->
  getProp reqBody "event" = Ok (JStr "evaluationSubmitted") ->
  getProp reqBody "data" = Ok (JObj props) ->
  getProp reqBody "type" = Ok type ->
  bulkType type = false ->
  submission props team evaluator rates comment ->
  exists first second doc,
    delivered (snd (upload reqBody w)) = delivered w ++ [first; second]
    /\ docs (snd (upload reqBody w)) = docs w ++ [doc]
    /\ eventName first = "evaluationSubmitted"
    /\ getProp (payload first) "evaluationId" = Ok (JObjectId (_id doc))
    /\ forall k,
         k <> "evaluationId" ->
         getProp (payload first) k = getProp (JObj props) k.
Proof.
  intros Hc Hcreate Htrig1 Hfind Htrig2 He Hd Ht Hb Hsub.
  rewrite (upload_submission_run w reqBody type props team evaluator rates
             comment Hc Hcreate Htrig1 Hfind Htrig2 He Hd Ht Hb Hsub).
  cbn [snd]. rewrite afterSubmission_delivered, afterSubmission_docs.
  do 3 eexists. split; [reflexivity|]. split; [reflexivity|].
  split; [reflexivity|]. cbn [payload submittedBroadcast getProp stored _id].
  split.
  - now rewrite lookup_assign_same.
  - intros k Hk. now rewrite lookup_assign_other.
Qed.

End RoundTrip.

(** ** The further properties at concrete requests *)

Lemma only_submissions_store_witness :
  docs (snd (upload (JObj [("event", JStr "timeSync"); ("data", JNum 42)])
                    worldNameless))
  = docs worldNameless.
Proof.
  apply (only_submissions_store
           (JObj [("event", JStr "timeSync"); ("data", JNum 42)])
           worldNameless).
  cbn. discriminate.
Defined.

Lemma upload_needs_connection_witness :
  exists w',
    upload (JObj [("type", JStr "teams"); ("data", JArr [JStr "red"])])
           worldUnreachable
      = (Ok error500, w')
    /\ docs w' = docs worldUnreachable
    /\ delivered w' = delivered worldUnreachable
    /\ calls w' = calls worldUnreachable ++ [CallConnect]
    /\ console w' =
         console worldUnreachable
         ++ [LogConnectionError StoreError; LogEventError StoreError].
Proof.
  apply (upload_needs_connection
           (JObj [("type", JStr "teams"); ("data", JArr [JStr "red"])])
           worldUnreachable).
  - reflexivity.
  - reflexivity.
Defined.

Lemma upload_without_body_witness :
  exists w',
    upload JUndefined world0 = (Ok error500, w')
    /\ docs w' = docs world0
    /\ delivered w' = delivered world0
    /\ calls w' = calls world0 ++ connectCalls world0
    /\ (connects world0 ->
        console w' = console (ensured world0) ++ [LogEventError TypeError]).
Proof.
  apply (upload_without_body JUndefined world0). reflexivity.
Defined.

Lemma bulk_upload_unvalidated_witness :
  fst (upload (JObj [("type", JStr "participants"); ("data", JNum 7)]) world0)
  = Ok (match getProp (JNum 7) "length" with
        | Ok count =>
            mkResponse 200
              (JObj [("message",
                      JStr ("Successfully processed " ++ "participants"
                            ++ " upload")%string);
                     ("count", count)])
        | Throw _ => error500
        end)
  /\ (nullish (JNum 7) = false
      <-> exists count, getProp (JNum 7) "length" = Ok count).
Proof.
  apply (bulk_upload_unvalidated world0
           (JObj [("type", JStr "participants"); ("data", JNum 7)])
           (JNum 7) "participants").
  - left. cbn. discriminate.
  - reflexivity.
  - left. reflexivity.
  - reflexivity.
Defined.

Lemma submission_refused_by_store_witness :
  exists w',
    upload (submit "T1") worldStoreRefuses = (Ok error500, w')
    /\ docs w' = docs worldStoreRefuses
    /\ delivered w' = delivered worldStoreRefuses
    /\ calls w' =
         calls worldStoreRefuses ++ connectCalls worldStoreRefuses
         ++ [CallCreate (JStr "T1") (JStr "U1") (JObj [("clarity", JNum 5)])
                        (JStr "well paced") (clock worldStoreRefuses)].
Proof.
  apply (submission_refused_by_store worldStoreRefuses (submit "T1") JUndefined
           [("team", JStr "T1"); ("evaluator", JStr "U1");
            ("evaluation",
             JObj [("ratings", JObj [("clarity", JNum 5)]);
                   ("feedback", JStr "well paced")])]).
  - left. cbn. discriminate.
  - reflexivity.
  - reflexivity.
  - reflexivity.
  - reflexivity.
  - reflexivity.
  - split; [reflexivity|]. split; [reflexivity|].
    exists [("ratings", JObj [("clarity", JNum 5)]);
            ("feedback", JStr "well paced")].
    repeat split; reflexivity.
Defined.

Lemma submission_first_publish_refused_witness :
  let props := [("team", JStr "T1"); ("evaluator", JStr "U1");
                ("evaluation",
                 JObj [("ratings", JObj [("clarity", JNum 5)]);
                       ("feedback", JStr "well paced")])] in
  exists w',
    upload (submit "T1") worldBrokerDown = (Ok error500, w')
    /\ docs w' =
         docs worldBrokerDown
         ++ [stored worldBrokerDown "T1" "U1"
                    (keepMixed (JObj [("clarity", JNum 5)]))
                    "well paced"]
    /\ delivered w' = delivered worldBrokerDown
    /\ calls w' =
         calls worldBrokerDown ++ connectCalls worldBrokerDown
         ++ [CallCreate (JStr "T1") (JStr "U1") (JObj [("clarity", JNum 5)])
                        (JStr "well paced") (clock worldBrokerDown);
             CallTrigger "presentation" "evaluationSubmitted"
                         (payload (submittedBroadcast worldBrokerDown props))].
Proof.
  apply (submission_first_publish_refused worldBrokerDown (submit "T1")
           JUndefined).
  - left. cbn. discriminate.
  - reflexivity.
  - reflexivity.
  - reflexivity.
  - reflexivity.
  - reflexivity.
  - reflexivity.
  - split; [reflexivity|]. split; [reflexivity|].
    exists [("ratings", JObj [("clarity", JNum 5)]);
            ("feedback", JStr "well paced")].
    repeat split; reflexivity.
Defined.

Lemma submission_second_stage_fails_witness :
  let props := [("team", JStr "T1"); ("evaluator", JStr "U1");
                ("evaluation",
                 JObj [("ratings", JObj [("clarity", JNum 5)]);
                       ("feedback", JStr "well paced")])] in
  exists w',
    upload (submit "T1") worldQueryFails = (Ok error500, w')
    /\ docs w' =
         docs worldQueryFails
         ++ [stored worldQueryFails "T1" "U1"
                    (keepMixed (JObj [("clarity", JNum 5)]))
                    "well paced"]
    /\ delivered w' =
         delivered worldQueryFails ++ [submittedBroadcast worldQueryFails props].
Proof.
  apply (submission_second_stage_fails worldQueryFails (submit "T1")
           JUndefined).
  - left. cbn. discriminate.
  - reflexivity.
  - reflexivity.
  - left. reflexivity.
  - reflexivity.
  - reflexivity.
  - reflexivity.
  - reflexivity.
  - split; [reflexivity|]. split; [reflexivity|].
    exists [("ratings", JObj [("clarity", JNum 5)]);
            ("feedback", JStr "well paced")].
    repeat split; reflexivity.
Defined.

Lemma relay_event_refused_witness :
  exists w',
    upload (JObj [("event", JStr "presentationEnded")]) worldBrokerDown
      = (Ok error500, w')
    /\ delivered w' = delivered worldBrokerDown
    /\ docs w' = docs worldBrokerDown
    /\ calls w' =
         calls worldBrokerDown ++ connectCalls worldBrokerDown
         ++ [CallTrigger "presentation" "presentationEnded" JUndefined].
Proof.
  apply (relay_event_refused worldBrokerDown
           (JObj [("event", JStr "presentationEnded")])
           JUndefined JUndefined "presentationEnded").
  - left. cbn. discriminate.
  - reflexivity.
  - reflexivity.
  - reflexivity.
  - reflexivity.
  - reflexivity.
  - cbn. tauto.
Defined.

Lemma feedbacks_query_fails_witness :
  exists w',
    feedbacks worldQueryFails = (Ok error500, w')
    /\ calls w' =
         calls worldQueryFails ++ connectCalls worldQueryFails
         ++ [CallFind None]
    /\ console w' =
         console (ensured worldQueryFails) ++ [LogFeedbacksError StoreError].
Proof.
  apply (feedbacks_query_fails worldQueryFails).
  - left. cbn. discriminate.
  - reflexivity.
Defined.

Lemma feedbacks_groups_by_key_witness :
  exists groups w',
    feedbacks worldNameless = (Ok (mkResponse 200 (JObj groups)), w')
    /\ NoDup (map fst groups)
    /\ forall k,
         lookup k groups =
           if existsb (filedUnder k) (docs worldNameless)
           then Some (JArr (map feedbackEntry
                                (filter (filedUnder k) (docs worldNameless))))
           else None.
Proof.
  apply (feedbacks_groups_by_key worldNameless).
  - left. cbn. discriminate.
  - reflexivity.
  - reflexivity.
Defined.

Lemma feedbacks_ok_iff_groupable_witness :
  (exists r, fst (feedbacks worldNameless) = Ok r /\ status r = 200)
  <-> groupable (docs worldNameless) = true.
Proof.
  apply (feedbacks_ok_iff_groupable worldNameless).
  - left. cbn. discriminate.
  - reflexivity.
Defined.


Lemma submitted_broadcast_carries_stored_id_witness :
  let props := [("team", JStr "T1"); ("evaluator", JStr "U1");
                ("evaluationId", JStr "mine");
                ("evaluation",
                 JObj [("ratings", JNum 4); ("feedback", JStr "fine")])] in
  let reqBody := JObj [("event", JStr "evaluationSubmitted");
                       ("data", JObj props)] in
  exists first second doc,
    delivered (snd (upload reqBody world0)) = delivered world0 ++ [first; second]
    /\ docs (snd (upload reqBody world0)) = docs world0 ++ [doc]
    /\ eventName first = "evaluationSubmitted"
    /\ getProp (payload first) "evaluationId" = Ok (JObjectId (_id doc))
    /\ forall k,
         k <> "evaluationId" ->
         getProp (payload first) k = getProp (JObj props) k.
Proof.
  apply (submitted_broadcast_carries_stored_id world0
           (JObj [("event", JStr "evaluationSubmitted");
                  ("data",
                   JObj [("team", JStr "T1"); ("evaluator", JStr "U1");
                         ("evaluationId", JStr "mine");
                         ("evaluation",
                          JObj [("ratings", JNum 4);
                                ("feedback", JStr "fine")])])])
           JUndefined
           [("team", JStr "T1"); ("evaluator", JStr "U1");
            ("evaluationId", JStr "mine");
            ("evaluation",
             JObj [("ratings", JNum 4); ("feedback", JStr "fine")])]
           "T1" "U1" (JNum 4) "fine").
  - left. cbn. discriminate.
  - reflexivity.
  - reflexivity.
  - reflexivity.
  - reflexivity.
  - reflexivity.
  - reflexivity.
  - reflexivity.
  - reflexivity.
  - split; [reflexivity|]. split; [reflexivity|].
    exists [("ratings", JNum 4); ("feedback", JStr "fine")].
    repeat split; reflexivity.
Defined.

(** ** Requests that reach a store that cannot be connected *)


(** C2 as stated fails: while the store is disconnected and cannot be
    reached, a relay event is answered 500 and is not broadcast. *)
Lemma relay_event_unreachable_store :
  ~ (forall (w : World) (reqBody data type : JVal) (name : string),
        getProp reqBody "event" = Ok (JStr name) ->
        getProp reqBody "data" = Ok data ->
        getProp reqBody "type" = Ok type ->
        bulkType type = false ->
        In name relayEvents ->
        exists w',
          upload reqBody w = (Ok ok200, w')
          /\ delivered w' = delivered w ++ [mkBroadcast "presentation" name data]
          /\ docs w' = docs w).
Proof.
  intros H.
  destruct (H worldUnreachable
              (JObj [("event", JStr "timeSync"); ("data", JNum 42)])
              (JNum 42) JUndefined "timeSync"
              eq_refl eq_refl eq_refl eq_refl)
    as (w' & Hrun & _).
  - cbn. tauto.
  - vm_compute in Hrun. inversion Hrun.
Qed.

(** C4 as stated fails: while the store is disconnected and cannot be
    reached, a bulk upload of a list is answered 500, not acknowledged. *)
Lemma bulk_upload_unreachable_store :
  ~ (forall (w : World) (reqBody : JVal) (kind : string) (items : list JVal),
        getProp reqBody "type" = Ok (JStr kind) ->
        kind = "participants" \/ kind = "teams" ->
        getProp reqBody "data" = Ok (JArr items) ->
        exists w',
          upload reqBody w =
            (Ok (mkResponse 200
                   (JObj [("message",
                           JStr ("Successfully processed " ++ kind
                                 ++ " upload")%string);
                          ("count", JNum (Z.of_nat (List.length items)))])),
             w')
          /\ docs w' = docs w
          /\ delivered w' = delivered w).
Proof.
  intros H.
  destruct (H worldUnreachable
              (JObj [("type", JStr "teams");
                     ("data", JArr [JStr "red"; JStr "blue"])])
              "teams" [JStr "red"; JStr "blue"]
              eq_refl (or_intror eq_refl) eq_refl)
    as (w' & Hrun & _).
  vm_compute in Hrun. inversion Hrun.
Qed.

(** ** Ratings the store does not keep *)

Section EmptyRatings.

Context {store : DocumentStore}.

(** A submission whose ratings are an empty object is stored without
    ratings. *)
Lemma empty_ratings_not_stored
      (w : World) (reqBody type : JVal) (props : list (string * JVal))
      (team evaluator comment : string) :
  connects w ->
  faulty w OpCreate = false ->
  faulty w (OpTrigger "evaluationSubmitted") = false ->
  faulty w OpFind = false ->
  faulty w (OpTrigger "teamEvaluations") = false ->
  getProp reqBody "event" = Ok (JStr "evaluationSubmitted") ->
  getProp reqBody "data" = Ok (JObj props) ->
  getProp reqBody "type" = Ok type ->
  bulkType type = false ->
  submission props team evaluator (JObj []) comment ->
  docs (snd (upload reqBody w)) =
    docs w ++ [stored w team evaluator JUndefined comment].
Proof.
  intros Hc Hcreate Htrig1 Hfind Htrig2 He Hd Ht Hb Hsub.
  rewrite (upload_submission_run w reqBody type props team evaluator (JObj [])
             comment Hc Hcreate Htrig1 Hfind Htrig2 He Hd Ht Hb Hsub).
  cbn [snd]. now rewrite afterSubmission_docs, keepMixed_empty.
Qed.

End EmptyRatings.
